(** * The batch-grading webhook server (agent/webhook_server.py)

    A shallow embedding of the grading pipeline: [parse_agent_response],
    [grade_single_question] and [process_all_questions], together with an
    interleaving model of the tasks that [asyncio.gather] runs behind the
    semaphore.

    Python values are kept as Python has them: integers are unbounded ([Z]),
    floats are IEEE binary64 values ([spec_float]), a [str] is a sequence of
    code points, exceptions are values that a computation may raise instead
    of returning. *)

From Stdlib Require Import ZArith NArith List Bool Lia Ascii String.
From Stdlib Require Import Sorting.Sorted Sorting.Permutation.
From Stdlib Require Import Floats.SpecFloat DecimalString.
Import ListNotations.

Set Warnings "-register-all".

Local Open Scope Z_scope.

(** ** Python strings *)

(** A [str] is a sequence of Unicode code points. *)
Definition char := N.
Definition pystr := list char.

(** [py "abc"] is the [str] of an ASCII literal of the source. *)
Definition py (s : string) : pystr :=
  map N_of_ascii (list_ascii_of_string s).

(** The same for a literal that holds double quotes, written with an
    apostrophe in place of each. *)
Definition pyq (s : string) : pystr :=
  map (fun c => if N.eqb c 39 then 34%N else c) (py s).

Definition char_eqb (a b : char) : bool := N.eqb a b.

Fixpoint pystr_eqb (s t : pystr) : bool :=
  match s, t with
  | [], [] => true
  | a :: s', b :: t' => char_eqb a b && pystr_eqb s' t'
  | _, _ => false
  end.

(** [str.isspace] on one code point, the set [str.strip()] removes:
    U+0009..U+000D, U+001C..U+0020, U+0085, U+00A0, U+1680, U+2000..U+200A,
    U+2028, U+2029, U+202F, U+205F and U+3000. *)
Definition is_space (c : char) : bool :=
  (((9 <=? c) && (c <=? 13)) || ((28 <=? c) && (c <=? 32))
   || (c =? 133) || (c =? 160) || (c =? 5760)
   || ((8192 <=? c) && (c <=? 8202))
   || (c =? 8232) || (c =? 8233) || (c =? 8239) || (c =? 8287)
   || (c =? 12288))%N.

Fixpoint lstrip (s : pystr) : pystr :=
  match s with
  | [] => []
  | c :: t => if is_space c then lstrip t else s
  end.

Definition rstrip (s : pystr) : pystr := rev (lstrip (rev s)).

(** [s.strip()] *)
Definition strip (s : pystr) : pystr := rstrip (lstrip s).

(** Position of the first occurrence of [c], if any. *)
Fixpoint index_of (c : char) (s : pystr) : option nat :=
  match s with
  | [] => None
  | x :: t => if char_eqb x c then Some O
              else option_map S (index_of c t)
  end.

(** Position of the last occurrence of [c], if any. *)
Fixpoint last_index_of (c : char) (s : pystr) : option nat :=
  match s with
  | [] => None
  | x :: t => match last_index_of c t with
              | Some i => Some (S i)
              | None => if char_eqb x c then Some O else None
              end
  end.

(** [s.find(c)] and [s.rfind(c)] for a one-character needle: the index, or
    [-1] when the character does not occur. *)
Definition find (c : char) (s : pystr) : Z :=
  match index_of c s with Some i => Z.of_nat i | None => -1 end.

Definition rfind (c : char) (s : pystr) : Z :=
  match last_index_of c s with Some i => Z.of_nat i | None => -1 end.

(** A slice bound as Python normalises it: a negative bound counts from the
    end, and the result is clamped to [0..len]. *)
Definition slice_bound (len i : Z) : Z :=
  if i <? 0 then Z.max 0 (i + len) else Z.min i len.

(** [s[a:b]] *)
Definition slice {A : Type} (s : list A) (a b : Z) : list A :=
  let n := Z.of_nat (List.length s) in
  let lo := slice_bound n a in
  let hi := slice_bound n b in
  firstn (Z.to_nat (hi - lo)) (skipn (Z.to_nat lo) s).

Definition LBRACE : char := 123%N.
Definition RBRACE : char := 125%N.

(** ** Exceptions and results *)

(** The exception classes that can reach the handlers of this module.  All
    of them derive from [Exception]; [PlainException] is [Exception] itself,
    as raised by [raise Exception(...)]. *)
Inductive exn_class :=
| JSONDecodeError | ValueError | TypeError | OverflowError | AttributeError
| RecursionError | IndexError | HTTPStatusError | TransportError
| PlainException.

(** An exception value; [exn_str e] is [str(e)]. *)
Record exn := mk_exn { exn_cls : exn_class; exn_str : pystr }.

Definition is_JSONDecodeError (e : exn) : bool :=
  match exn_cls e with JSONDecodeError => true | _ => false end.

(** A computation either returns a value or raises. *)
Inductive result (A : Type) :=
| Ok (a : A)
| Raise (e : exn).
Arguments Ok {A} a.
Arguments Raise {A} e.

Definition bind {A B : Type} (m : result A) (k : A -> result B) : result B :=
  match m with
  | Ok a => k a
  | Raise e => Raise e
  end.

Notation "x <- m ;; k" := (bind m (fun x => k))
  (at level 61, m at next level, right associativity).

(** ** Values decoded from JSON *)

Definition pyfloat := spec_float.

Inductive pyval :=
| PNone
| PBool (b : bool)
| PInt (z : Z)
| PFloat (f : pyfloat)
| PStr (s : pystr)
| PList (l : list pyval)
| PDict (d : list (pystr * pyval)).

(** A [dict] keeps its items in insertion order. *)
Fixpoint dict_get {V : Type} (k : pystr) (d : list (pystr * V)) : option V :=
  match d with
  | [] => None
  | (k', v) :: t => if pystr_eqb k' k then Some v else dict_get k t
  end.

(** [d[k] = v]: an existing key keeps its place, a new one goes last. *)
Fixpoint dict_set {V : Type} (k : pystr) (v : V) (d : list (pystr * V))
  : list (pystr * V) :=
  match d with
  | [] => [(k, v)]
  | (k', v') :: t => if pystr_eqb k' k then (k', v) :: t
                     else (k', v') :: dict_set k v t
  end.

Definition dict_keys {V : Type} (d : list (pystr * V)) : list pystr :=
  map fst d.

(** [obj.get(key, default)]: only a [dict] has the method among the values
    JSON decodes to. *)
Definition py_get (obj : pyval) (key : pystr) (default : pyval)
  : result pyval :=
  match obj with
  | PDict d => Ok (match dict_get key d with Some v => v | None => default end)
  | _ => Raise (mk_exn AttributeError (py "object has no attribute 'get'"))
  end.

(** [str(n)] for an integer. *)
Definition str_of_Z (n : Z) : pystr := py (NilZero.string_of_int (Z.to_int n)).

(** ** Configuration *)

Definition MAX_PARALLEL_TASKS : nat := 4.
Definition MAX_RETRIES : nat := 3.
Definition RETRY_DELAY : Z := 2.
Definition REQUEST_TIMEOUT : Z := 120.

(** [range(n)] *)
Definition range (n : nat) : list nat := seq 0 n.

(** ** Questions and outcomes *)

(** A submitted question, a [dict].  The pipeline itself reads two keys,
    ["order"] and ["points_possible"], each of which may be absent; the other
    items ([question_text], [question_type], the answer, [course]) only travel
    to the grading agent.  [order] is an integer, as the result model
    [GradingResult] declares it. *)
Record question := mk_question {
  q_order : option Z;
  q_points_possible : option pyval;
  q_items : list (pystr * pyval)
}.

Inductive grade_status := StatusSuccess | StatusError.

(** The dict [parse_agent_response] returns: it has no ["status"] and no
    ["error_message"] yet. *)
Record parsed := mk_parsed {
  p_question_id : Z;
  p_order : Z;
  p_points_earned : pyval;
  p_points_possible : pyval;
  p_feedback : pyval;
  p_correct_answer : pyval
}.

(** One graded question, as [GradingResult] lists its fields. *)
Record outcome := mk_outcome {
  question_id : Z;
  order : Z;
  points_earned : pyval;
  points_possible : pyval;
  feedback : pyval;
  correct_answer : pyval;
  status : grade_status;
  error_message : option pystr
}.

(** [result["status"] = s; result["error_message"] = m] on a parsed dict. *)
Definition with_status (r : parsed) (s : grade_status) (m : option pystr)
  : outcome :=
  {| question_id := p_question_id r;
     order := p_order r;
     points_earned := p_points_earned r;
     points_possible := p_points_possible r;
     feedback := p_feedback r;
     correct_answer := p_correct_answer r;
     status := s;
     error_message := m |}.

(** [result["question_id"] = v] *)
Definition set_question_id (r : outcome) (v : Z) : outcome :=
  {| question_id := v;
     order := order r;
     points_earned := points_earned r;
     points_possible := points_possible r;
     feedback := feedback r;
     correct_answer := correct_answer r;
     status := status r;
     error_message := error_message r |}.

(** The three fixed feedback texts; code point 228 is a-umlaut. *)
Definition FEEDBACK_PARSE_FAILED : pystr :=
  py "Vastauksen k" ++ [228%N] ++ py "sittelyss" ++ [228%N]
     ++ py " tapahtui virhe.".
Definition FEEDBACK_RETRIES_FAILED : pystr :=
  py "Arvostelua ei voitu suorittaa teknisen virheen vuoksi.".
Definition FEEDBACK_UNHANDLED : pystr :=
  py "Tekninen virhe arvioinnissa.".


(** ** The Python runtime, for running the pipeline on concrete inputs

    [Section Pipeline] below takes [json.loads] and [float] as parameters, so
    that what is proved there holds whatever they return.  The definitions
    here follow CPython's behaviour closely enough to run the pipeline on
    examples: [Json.loads] is the decoder of the [json] module (messages of
    [JSONDecodeError] come without the position), [Builtins.float] is the
    built-in (digits outside ASCII, which it also accepts in a [str], are
    refused here). *)

Module Float64.

Definition prec : Z := 53.
Definition emax : Z := 1024.

(** The double nearest to the integer [z], ties to even; an infinity when
    [z] is out of range. *)
Definition of_Z (z : Z) : pyfloat := binary_normalize prec emax z 0 false.

(** The double nearest to [(-1)^neg * m * 10^e], as [strtod] rounds a
    decimal literal.  For a negative [e] the quotient is taken with enough
    extra bits and a sticky bit for the rounding to be that of the exact
    value; literals far out of range go to infinity or zero at once. *)
Definition of_decimal (neg : bool) (m : Z) (e : Z) : pyfloat :=
  let sign := fun v : Z => if neg then - v else v in
  if m =? 0 then S754_zero neg
  else if e >? 400 then S754_infinity neg
  else if 0 <=? e then binary_normalize prec emax (sign (m * 10 ^ e)) 0 neg
  else if - e >? 400 + Z.log2 m then S754_zero neg
  else
    let d := 10 ^ (- e) in
    let s := Z.max 0 (64 + Z.log2 d - Z.log2 m) in
    let q := (m * 2 ^ s) / d in
    let sticky := if (m * 2 ^ s) mod d =? 0 then 0 else 1 in
    binary_normalize prec emax (sign (2 * q + sticky)) (- s - 1) neg.

End Float64.

Module Lex.

Definition is_digit (c : char) : bool := ((48 <=? c) && (c <=? 57))%N.

Definition digit_value (c : char) : Z := Z.of_N (c - 48).

(** The integer a run of ASCII digits writes. *)
Definition number_of (digits : pystr) : Z :=
  fold_left (fun acc c => 10 * acc + digit_value c) digits 0.

(** The longest run of digits at the front of [s], and what follows. *)
Fixpoint span_digits (s : pystr) : pystr * pystr :=
  match s with
  | c :: t => if is_digit c
              then let '(ds, rest) := span_digits t in (c :: ds, rest)
              else ([], s)
  | [] => ([], [])
  end.

Fixpoint starts_with (prefix s : pystr) : bool :=
  match prefix, s with
  | [], _ => true
  | a :: p', b :: s' => char_eqb a b && starts_with p' s'
  | _ :: _, [] => false
  end.

Definition lower (c : char) : char :=
  if ((65 <=? c) && (c <=? 90))%N then (c + 32)%N else c.

Definition hex_value (c : char) : option N :=
  if is_digit c then Some (c - 48)%N
  else if ((97 <=? c) && (c <=? 102))%N then Some (c - 87)%N
  else if ((65 <=? c) && (c <=? 70))%N then Some (c - 55)%N
  else None.

Definition hex4 (a b c d : char) : option N :=
  match hex_value a, hex_value b, hex_value c, hex_value d with
  | Some x, Some y, Some z, Some w =>
      Some (((x * 16 + y) * 16 + z) * 16 + w)%N
  | _, _, _, _ => None
  end.

End Lex.

Module Json.

Import Lex.

Definition error {A : Type} (msg : string) : result A :=
  Raise (mk_exn JSONDecodeError (py msg)).

(** The whitespace JSON allows between tokens. *)
Definition is_ws (c : char) : bool :=
  ((c =? 32) || (c =? 9) || (c =? 10) || (c =? 13))%N.

Fixpoint skip_ws (s : pystr) : pystr :=
  match s with
  | c :: t => if is_ws c then skip_ws t else s
  | [] => []
  end.

Definition simple_escape (c : char) : option char :=
  (if c =? 34 then Some 34        (* quote *)
   else if c =? 92 then Some 92   (* backslash *)
   else if c =? 47 then Some 47   (* slash *)
   else if c =? 98 then Some 8    (* b *)
   else if c =? 102 then Some 12  (* f *)
   else if c =? 110 then Some 10  (* n *)
   else if c =? 114 then Some 13  (* r *)
   else if c =? 116 then Some 9   (* t *)
   else None)%N.

Definition is_high_surrogate (u : N) : bool :=
  ((55296 <=? u) && (u <=? 56319))%N.
Definition is_low_surrogate (u : N) : bool :=
  ((56320 <=? u) && (u <=? 57343))%N.

(** A [\uXXXX] escape adds [u] to the text read so far ([acc], last
    character first); [escaped_high] tells that the last character is a
    high surrogate that an escape wrote, which a low surrogate completes. *)
Definition push_escape (u : N) (acc : pystr) (escaped_high : bool)
  : pystr :=
  match acc with
  | h :: acc' =>
      if escaped_high && is_low_surrogate u
      then (65536 + (h - 55296) * 1024 + (u - 56320))%N :: acc'
      else u :: acc
  | [] => [u]
  end.

(** The body of a string, from after its opening quote to its closing
    quote; control characters are refused. *)
Fixpoint scan_string (s : pystr) (acc : pystr) (escaped_high : bool)
  : result (pystr * pystr) :=
  match s with
  | [] => error "Unterminated string starting at"
  | c :: t =>
      if (c =? 34)%N then Ok (rev acc, t)
      else if (c =? 92)%N then
        match t with
        | [] => error "Unterminated string starting at"
        | e :: t' =>
            if (e =? 117)%N then
              match t' with
              | a :: b :: c' :: d :: t'' =>
                  match hex4 a b c' d with
                  | Some u =>
                      scan_string t'' (push_escape u acc escaped_high)
                        (is_high_surrogate u)
                  | None => error "Invalid \\uXXXX escape"
                  end
              | _ => error "Invalid \\uXXXX escape"
              end
            else
              match simple_escape e with
              | Some ch => scan_string t' (ch :: acc) false
              | None => error "Invalid \\escape"
              end
        end
      else if (c <? 32)%N then error "Invalid control character at"
      else scan_string t (c :: acc) false
  end.

(** A number at the front of [s]: an integer part, then a fraction and an
    exponent when they are complete.  A literal with either is a float. *)
Definition scan_number (s : pystr) : result (pyval * pystr) :=
  let '(neg, s1) :=
    match s with
    | c :: t => if (c =? 45)%N then (true, t) else (false, s)
    | [] => (false, s)
    end in
  let '(int_digits, s2) :=
    match s1 with
    | c :: t => if (c =? 48)%N then ([c], t) else span_digits s1
    | [] => ([], s1)
    end in
  match int_digits with
  | [] => error "Expecting value"
  | _ =>
      let '(frac_digits, s3) :=
        match s2 with
        | c :: t =>
            if (c =? 46)%N then
              match span_digits t with
              | ([], _) => ([], s2)
              | (ds, rest) => (ds, rest)
              end
            else ([], s2)
        | [] => ([], s2)
        end in
      let '(exponent, s4) :=
        match s3 with
        | c :: t =>
            if (c =? 101)%N || (c =? 69)%N then
              let '(eneg, t1) :=
                match t with
                | sg :: t' =>
                    if (sg =? 45)%N then (true, t')
                    else if (sg =? 43)%N then (false, t')
                    else (false, t)
                | [] => (false, t)
                end in
              match span_digits t1 with
              | ([], _) => (None, s3)
              | (ds, rest) =>
                  (Some (if eneg then - number_of ds else number_of ds),
                   rest)
              end
            else (None, s3)
        | [] => (None, s3)
        end in
      match frac_digits, exponent with
      | [], None =>
          let n := number_of int_digits in
          Ok (PInt (if neg then - n else n), s4)
      | _, _ =>
          let e := match exponent with Some x => x | None => 0 end in
          Ok (PFloat (Float64.of_decimal neg
                        (number_of (int_digits ++ frac_digits))
                        (e - Z.of_nat (List.length frac_digits))),
              s4)
      end
  end.

(** One JSON value at the front of [s], and what follows it.  [fuel]
    bounds the number of nested calls; [loads] gives more of it than a
    text of that length can use. *)
Fixpoint scan_once (fuel : nat) (s : pystr) : result (pyval * pystr) :=
  match fuel with
  | O => Raise (mk_exn RecursionError
                  (py "maximum recursion depth exceeded"))
  | S fuel' =>
      match s with
      | [] => error "Expecting value"
      | c :: t =>
          if (c =? 34)%N then
            r <- scan_string t [] false ;;
            Ok (PStr (fst r), snd r)
          else if (c =? 123)%N then
            match skip_ws t with
            | c' :: t' =>
                if (c' =? 125)%N then Ok (PDict [], t')
                else scan_members fuel' (c' :: t') []
            | [] => scan_members fuel' [] []
            end
          else if (c =? 91)%N then
            match skip_ws t with
            | c' :: t' =>
                if (c' =? 93)%N then Ok (PList [], t')
                else scan_items fuel' (c' :: t') []
            | [] => scan_items fuel' [] []
            end
          else if starts_with (py "null") s then Ok (PNone, skipn 4 s)
          else if starts_with (py "true") s then Ok (PBool true, skipn 4 s)
          else if starts_with (py "false") s
          then Ok (PBool false, skipn 5 s)
          else if starts_with (py "NaN") s
          then Ok (PFloat S754_nan, skipn 3 s)
          else if starts_with (py "Infinity") s
          then Ok (PFloat (S754_infinity false), skipn 8 s)
          else if starts_with (py "-Infinity") s
          then Ok (PFloat (S754_infinity true), skipn 9 s)
          else scan_number s
      end
  end

(** The members of an object from a key on; [acc] is the dict so far. *)
with scan_members (fuel : nat) (s : pystr) (acc : list (pystr * pyval))
  : result (pyval * pystr) :=
  match fuel with
  | O => Raise (mk_exn RecursionError
                  (py "maximum recursion depth exceeded"))
  | S fuel' =>
      match s with
      | c :: t =>
          if (c =? 34)%N then
            k <- scan_string t [] false ;;
            match skip_ws (snd k) with
            | colon :: t1 =>
                if (colon =? 58)%N then
                  v <- scan_once fuel' (skip_ws t1) ;;
                  let acc' := dict_set (fst k) (fst v) acc in
                  match skip_ws (snd v) with
                  | d :: t2 =>
                      if (d =? 125)%N then Ok (PDict acc', t2)
                      else if (d =? 44)%N
                      then scan_members fuel' (skip_ws t2) acc'
                      else error "Expecting ',' delimiter"
                  | [] => error "Expecting ',' delimiter"
                  end
                else error "Expecting ':' delimiter"
            | [] => error "Expecting ':' delimiter"
            end
          else error "Expecting property name enclosed in double quotes"
      | [] => error "Expecting property name enclosed in double quotes"
      end
  end

(** The items of an array from a value on; [acc] holds the items so far,
    last first. *)
with scan_items (fuel : nat) (s : pystr) (acc : list pyval)
  : result (pyval * pystr) :=
  match fuel with
  | O => Raise (mk_exn RecursionError
                  (py "maximum recursion depth exceeded"))
  | S fuel' =>
      v <- scan_once fuel' s ;;
      match skip_ws (snd v) with
      | d :: t =>
          if (d =? 93)%N then Ok (PList (rev (fst v :: acc)), t)
          else if (d =? 44)%N
          then scan_items fuel' (skip_ws t) (fst v :: acc)
          else error "Expecting ',' delimiter"
      | [] => error "Expecting ',' delimiter"
      end
  end.

(** [json.loads(s)]: one value, with nothing but whitespace around it. *)
Definition loads (s : pystr) : result pyval :=
  match s with
  | 65279%N :: _ => error "Unexpected UTF-8 BOM (decode using utf-8-sig)"
  | _ =>
      r <- scan_once (S (List.length s)) (skip_ws s) ;;
      match skip_ws (snd r) with
      | [] => Ok (fst r)
      | _ :: _ => error "Extra data"
      end
  end.

End Json.

Module Builtins.

Import Lex.

(** A run of digits in which single underscores may separate digits, and
    what follows it; the underscores are dropped. *)
Fixpoint digit_run (s : pystr) : pystr * pystr :=
  match s with
  | c :: t =>
      if is_digit c then
        match t with
        | u :: t' =>
            if (u =? 95)%N then
              match t' with
              | d :: _ =>
                  if is_digit d
                  then let '(ds, rest) := digit_run t' in (c :: ds, rest)
                  else ([c], t)
              | [] => ([c], t)
              end
            else let '(ds, rest) := digit_run t in (c :: ds, rest)
        | [] => ([c], [])
        end
      else ([], s)
  | [] => ([], [])
  end.

(** [float(s)] for a [str]: surrounding whitespace, a sign, then [inf],
    [infinity] or [nan] in any case, or a decimal with an optional
    fraction and exponent; [None] when the text is not of that form. *)
Definition float_of_str (s : pystr) : option pyfloat :=
  let '(neg, s1) :=
    match strip s with
    | c :: t => if (c =? 45)%N then (true, t)
                else if (c =? 43)%N then (false, t)
                else (false, c :: t)
    | [] => (false, [])
    end in
  let word := map lower s1 in
  if pystr_eqb word (py "inf") || pystr_eqb word (py "infinity")
  then Some (S754_infinity neg)
  else if pystr_eqb word (py "nan") then Some S754_nan
  else
    let '(int_digits, s2) := digit_run s1 in
    let '(frac_digits, s3) :=
      match s2 with
      | c :: t => if (c =? 46)%N then digit_run t else ([], s2)
      | [] => ([], s2)
      end in
    match int_digits ++ frac_digits with
    | [] => None
    | mantissa =>
        let '(exponent, s4) :=
          match s3 with
          | c :: t =>
              if (c =? 101)%N || (c =? 69)%N then
                let '(eneg, t1) :=
                  match t with
                  | sg :: t' =>
                      if (sg =? 45)%N then (true, t')
                      else if (sg =? 43)%N then (false, t')
                      else (false, t)
                  | [] => (false, t)
                  end in
                match digit_run t1 with
                | ([], _) => (0, s3)
                | (ds, rest) =>
                    (if eneg then - number_of ds else number_of ds, rest)
                end
              else (0, s3)
          | [] => (0, s3)
          end in
        match s4 with
        | [] =>
            Some (Float64.of_decimal neg (number_of mantissa)
                    (exponent - Z.of_nat (List.length frac_digits)))
        | _ :: _ => None
        end
    end.

(** [float(v)] for a value decoded from JSON. *)
Definition float (v : pyval) : result pyfloat :=
  match v with
  | PBool b => Ok (Float64.of_Z (if b then 1 else 0))
  | PInt z =>
      match Float64.of_Z z with
      | S754_infinity _ =>
          Raise (mk_exn OverflowError
                   (py "int too large to convert to float"))
      | f => Ok f
      end
  | PFloat f => Ok f
  | PStr s =>
      match float_of_str s with
      | Some f => Ok f
      | None =>
          Raise (mk_exn ValueError (py "could not convert string to float"))
      end
  | PNone | PList _ | PDict _ =>
      Raise (mk_exn TypeError
               (py "float() argument must be a string or a real number"))
  end.

End Builtins.

(** ** The pipeline *)

(** What one run of the grading agent gives back (lines 83-119 of an
    attempt): the text it produced, a timeout of [asyncio.wait_for], or an
    exception raised on the way (by [format_question_for_agent], by the
    session service or by the runner). *)
Inductive agent_reply :=
| Responded (text : pystr)
| TimedOut
| Crashed (e : exn).

(** What one POST to the callback gives back: a response with its status
    code, or an exception of the client (connection, timeout, encoding). *)
Inductive http_reply :=
| HttpResponse (status_code : Z)
| HttpFailed (e : exn).

(** [metadata] of the final payload. *)
Record metadata := mk_metadata {
  total_questions : nat;
  successful : nat;
  failed : nat;
  processing_time_seconds : pyfloat;
  timestamp : pystr
}.

(** The final payload is a [dict] that gains a key after the delivery. *)
Inductive payload_value :=
| VResults (rs : list outcome)
| VMetadata (m : metadata)
| VBool (b : bool).

Definition payload := list (pystr * payload_value).

(** What a grading task does that the outside can see. *)
Inductive grade_event :=
| AgentCall (attempt : nat)
| GradeSleep (seconds : Z).

(** What the delivery does that the outside can see. *)
Inductive delivery_event :=
| Post (url : pystr) (body : payload)
| DeliverySleep (seconds : Z).

(** [response.raise_for_status()] of httpx: any status outside 200..299
    raises [HTTPStatusError]. *)
Definition raise_for_status (status_code : Z) : result unit :=
  if (200 <=? status_code) && (status_code <=? 299) then Ok tt
  else Raise (mk_exn HTTPStatusError (str_of_Z status_code)).

(** Where a grading task stands at a point where the event loop may switch
    to another task. *)
Inductive task_state :=
| Waiting
    (* suspended in [async with semaphore], holding no slot *)
| Attempting (attempt : nat) (rest : list nat)
    (* inside the [try] of [attempt], awaiting the agent; [rest] are the
       attempts the loop still has *)
| BackingOff (rest : list nat)
    (* in [asyncio.sleep] after a failed attempt, still inside the
       [async with] *)
| Done (r : result (option outcome)).
    (* returned or raised; the [async with] has been left *)

(** The semaphore and the tasks of one batch. *)
Record pool := mk_pool {
  permits : nat;
  tasks : list task_state
}.

Definition holds_slot (s : task_state) : bool :=
  match s with
  | Attempting _ _ | BackingOff _ => true
  | Waiting | Done _ => false
  end.

Definition is_done (s : task_state) : bool :=
  match s with Done _ => true | _ => false end.

(** The grading invocations in flight: the tasks inside [async with]. *)
Definition in_flight (p : pool) : nat :=
  List.length (filter holds_slot (tasks p)).

Definition finished (p : pool) : bool := forallb is_done (tasks p).

(** What the tasks that are done have returned or raised, in task order. *)
Definition results_of (p : pool) : list (result (option outcome)) :=
  flat_map (fun s => match s with Done r => [r] | _ => [] end) (tasks p).

(** [l[i] = x]; the pool only writes at indices that exist. *)
Fixpoint list_set {A : Type} (i : nat) (x : A) (l : list A) : list A :=
  match l, i with
  | [], _ => []
  | _ :: t, O => x :: t
  | y :: t, S j => y :: list_set j x t
  end.

(** Top of the [for] loop with [attempts] still to run. *)
Definition loop_head (attempts : list nat) : task_state :=
  match attempts with
  | [] => Done (Ok None)
  | attempt :: rest => Attempting attempt rest
  end.

(** Leaving [async with semaphore] gives the slot back, however the body
    ended. *)
Definition release_if_done (s : task_state) (permits : nat) : nat :=
  match s with Done _ => S permits | _ => permits end.

(** ** Printing: [repr] of a float and [json.dumps] *)

Module Repr.

(** [n * 10^k < d * 10^j], for exponents of any sign. *)
Definition scaled_ltb (n k d j : Z) : bool :=
  if k <=? j then n <? d * 10 ^ (j - k) else n * 10 ^ (k - j) <? d.

(** The decimal point of [num / den > 0]: the [k] with
    [10^(k-1) <= num / den < 10^k], found from an estimate. *)
Definition decimal_point (num den : Z) : Z :=
  let est := ((Z.log2 num - Z.log2 den) * 30103) / 100000 in
  let below := fun k => scaled_ltb num 0 den k in     (* num/den < 10^k *)
  if below (est - 1) then est - 1
  else if below est then est
  else if below (est + 1) then est + 1
  else est + 2.

(** The digits of a positive integer, most significant first. *)
Definition digits_of (n : Z) : pystr := str_of_Z n.

Fixpoint strip_zeros_rev (rev_digits : pystr) : pystr :=
  match rev_digits with
  | c :: t => if (c =? 48)%N then strip_zeros_rev t else rev_digits
  | [] => []
  end.

(** Without its trailing zeros. *)
Definition strip_trailing_zeros (digits : pystr) : pystr :=
  rev (strip_zeros_rev (rev digits)).

Definition float_eqb (a b : pyfloat) : bool :=
  match a, b with
  | S754_zero s, S754_zero s' => Bool.eqb s s'
  | S754_infinity s, S754_infinity s' => Bool.eqb s s'
  | S754_nan, S754_nan => true
  | S754_finite s m e, S754_finite s' m' e' =>
      Bool.eqb s s' && Pos.eqb m m' && Z.eqb e e'
  | _, _ => false
  end.

(** The shortest digits that read back as the double [m * 2^e], and the
    place of the decimal point before them: with [n] digits tried in turn,
    the two [n]-digit decimals around the value are read back, the nearer
    one first. *)
Fixpoint shortest (f : pyfloat) (num den k : Z) (tries : list Z)
  : pystr * Z :=
  match tries with
  | [] => ([], k)
  | n :: rest =>
      let lo := (num * 10 ^ Z.max 0 (n - k)) / (den * 10 ^ Z.max 0 (k - n)) in
      let twice_frac_num :=
        2 * ((num * 10 ^ Z.max 0 (n - k)) mod (den * 10 ^ Z.max 0 (k - n))) in
      let half := den * 10 ^ Z.max 0 (k - n) in
      let lo_first :=
        (twice_frac_num <? half)
        || ((twice_frac_num =? half) && Z.even lo) in
      let reads_back := fun d => float_eqb (Float64.of_decimal false d (k - n)) f in
      let pick := fun d =>
        let ds := digits_of d in
        (strip_trailing_zeros ds, Z.of_nat (List.length ds) + (k - n)) in
      let first := if lo_first then lo else lo + 1 in
      let second := if lo_first then lo + 1 else lo in
      if (0 <? first) && reads_back first then pick first
      else if (0 <? second) && reads_back second then pick second
      else shortest f num den k rest
  end.

Definition zeros (n : Z) : pystr := repeat 48%N (Z.to_nat n).

(** [repr(x)] for a finite, non-zero double given by its digits and decimal
    point: positional for a decimal point in -3..16, with exponent
    otherwise. *)
Definition layout (digits : pystr) (decpt : Z) : pystr :=
  let n := Z.of_nat (List.length digits) in
  if (-4 <? decpt) && (decpt <=? 16) then
    if decpt <=? 0 then py "0." ++ zeros (- decpt) ++ digits
    else if n <=? decpt then digits ++ zeros (decpt - n) ++ py ".0"
    else firstn (Z.to_nat decpt) digits ++ py "."
           ++ skipn (Z.to_nat decpt) digits
  else
    let e := decpt - 1 in
    let mantissa :=
      match digits with
      | d :: ((_ :: _) as more) => d :: py "." ++ more
      | _ => digits
      end in
    let magnitude := str_of_Z (Z.abs e) in
    mantissa ++ py "e" ++ (if e <? 0 then py "-" else py "+")
      ++ (if Z.abs e <? 10 then py "0" else []) ++ magnitude.

(** [repr(x)] *)
Definition float_repr (f : pyfloat) : pystr :=
  match f with
  | S754_nan => py "nan"
  | S754_infinity s => if s then py "-inf" else py "inf"
  | S754_zero s => if s then py "-0.0" else py "0.0"
  | S754_finite s m e =>
      let num := if 0 <=? e then Z.pos m * 2 ^ e else Z.pos m in
      let den := if 0 <=? e then 1 else 2 ^ (- e) in
      let k := decimal_point num den in
      let '(digits, decpt) :=
        shortest (S754_finite false m e) num den k
          (map Z.of_nat (seq 1 17)) in
      (if s then py "-" else []) ++ layout digits decpt
  end.

End Repr.

Module Encode.

Definition hex_digit (n : N) : char :=
  (if n <? 10 then 48 + n else 87 + n)%N.

(** One character inside a JSON string, with [ensure_ascii=False]: the
    quote, the backslash and the control characters are escaped, all else
    is written as it is. *)
Definition escape_char (c : char) : pystr :=
  (if c =? 34 then py "\" ++ [34]
   else if c =? 92 then py "\\"
   else if c =? 10 then py "\n"
   else if c =? 13 then py "\r"
   else if c =? 9 then py "\t"
   else if c =? 8 then py "\b"
   else if c =? 12 then py "\f"
   else if c <? 32 then py "\u00" ++ [hex_digit (c / 16); hex_digit (c mod 16)]
   else [c])%N.

Definition encode_str (s : pystr) : pystr :=
  [34%N] ++ flat_map escape_char s ++ [34%N].

(** A float as [json.dumps] writes it. *)
Definition encode_float (f : pyfloat) : pystr :=
  match f with
  | S754_nan => py "NaN"
  | S754_infinity s => if s then py "-Infinity" else py "Infinity"
  | _ => Repr.float_repr f
  end.

(** [json.dumps(v, ensure_ascii=False)], with the default separators. *)
Fixpoint dumps (v : pyval) : pystr :=
  match v with
  | PNone => py "null"
  | PBool b => if b then py "true" else py "false"
  | PInt z => str_of_Z z
  | PFloat f => encode_float f
  | PStr s => encode_str s
  | PList l =>
      py "["
      ++ (fix items (l : list pyval) : pystr :=
            match l with
            | [] => []
            | [x] => dumps x
            | x :: t => dumps x ++ py ", " ++ items t
            end) l
      ++ py "]"
  | PDict d =>
      py "{"
      ++ (fix members (d : list (pystr * pyval)) : pystr :=
            match d with
            | [] => []
            | [(k, x)] => encode_str k ++ py ": " ++ dumps x
            | (k, x) :: t =>
                encode_str k ++ py ": " ++ dumps x ++ py ", " ++ members t
            end) d
      ++ py "}"
  end.

End Encode.

(** ** Operators of Python on decoded values *)

Module Ops.

(** [bool(v)] *)
Definition truthy (v : pyval) : bool :=
  match v with
  | PNone => false
  | PBool b => b
  | PInt z => negb (z =? 0)
  | PFloat (S754_zero _) => false
  | PFloat _ => true
  | PStr s => match s with [] => false | _ => true end
  | PList l => match l with [] => false | _ => true end
  | PDict d => match d with [] => false | _ => true end
  end.

(** [v == s] for a [str] literal [s]: only an equal [str] is equal to it. *)
Definition eq_str (v : pyval) (s : pystr) : bool :=
  match v with
  | PStr t => pystr_eqb t s
  | _ => false
  end.

(** [needle in s] for two [str]. *)
Fixpoint is_substring (needle s : pystr) : bool :=
  Lex.starts_with needle s
  || match s with
     | [] => false
     | _ :: t => is_substring needle t
     end.

Fixpoint has_key {V : Type} (k : pystr) (d : list (pystr * V)) : bool :=
  match d with
  | [] => false
  | (k', _) :: t => pystr_eqb k' k || has_key k t
  end.

(** [needle in v] for a [str] literal [needle]: a substring of a [str], an
    item of a list, a key of a dict; the other values are not iterable. *)
Definition contains (needle : pystr) (v : pyval) : result bool :=
  match v with
  | PStr s => Ok (is_substring needle s)
  | PList l => Ok (existsb (fun x => eq_str x needle) l)
  | PDict d => Ok (has_key needle d)
  | PNone =>
      Raise (mk_exn TypeError
               (py "argument of type 'NoneType' is not iterable"))
  | PBool _ =>
      Raise (mk_exn TypeError (py "argument of type 'bool' is not iterable"))
  | PInt _ =>
      Raise (mk_exn TypeError (py "argument of type 'int' is not iterable"))
  | PFloat _ =>
      Raise (mk_exn TypeError (py "argument of type 'float' is not iterable"))
  end.

Definition QUOTE : char := 34%N.

(** The text up to the next double quote, when there is one. *)
Fixpoint until_quote (s : pystr) : option pystr :=
  match s with
  | [] => None
  | c :: t => if char_eqb c QUOTE then Some []
              else option_map (cons c) (until_quote t)
  end.

(** [alt=] and a double quote, the fixed start of the pattern. *)
Definition ALT_OPEN : pystr := py "alt=" ++ [QUOTE].

(** The pattern at the front of [s]: [alt=], a quote, the text without
    quotes that is group 1, a quote. *)
Definition match_alt_here (s : pystr) : option pystr :=
  if Lex.starts_with ALT_OPEN s
  then until_quote (skipn (List.length ALT_OPEN) s)
  else None.

(** Group 1 of the leftmost match of the pattern in [s]
    ([re.search] with the pattern of line 171). *)
Fixpoint search_alt (s : pystr) : option pystr :=
  match match_alt_here s with
  | Some group => Some group
  | None => match s with
            | [] => None
            | _ :: t => search_alt t
            end
  end.

(** [re.search(pattern, v)]: anything but a [str] is refused. *)
Definition re_search_alt (v : pyval) : result (option pystr) :=
  match v with
  | PStr s => Ok (search_alt s)
  | _ => Raise (mk_exn TypeError (py "expected string or bytes-like object"))
  end.

End Ops.

(** ** Formatting a question for the agent *)

(** [question.get(key, default)] for the keys the formatting reads, which
    are among [q_items]. *)
Definition question_get (q : question) (key : pystr) (default : pyval)
  : pyval :=
  match dict_get key (q_items q) with
  | Some v => v
  | None => default
  end.

(** The dict [formatted] as it stands at line 180. *)
Definition formatted_question (q : question)
  : result (list (pystr * pyval)) :=
  let question_type := question_get q (py "question_type") (PStr (py "text")) in
  let formatted :=
    [ (py "question_text", question_get q (py "question_text") (PStr []));
      (py "question_type", question_type) ] in
  formatted <-
    (if Ops.eq_str question_type (py "multiple_choice") then
       let formatted :=
         dict_set (py "choices") (question_get q (py "choices") (PList []))
           formatted in
       let selected := question_get q (py "selected_answers") (PList []) in
       Ok (dict_set (py "student_answer")
             (if Ops.truthy selected then selected else PList [])
             formatted)
     else
       let answer := question_get q (py "answer") (PStr []) in
       has_img <- Ops.contains (py "<img") answer ;;
       has_alt <- (if has_img then Ops.contains Ops.ALT_OPEN answer
                   else Ok false) ;;
       answer <-
         (if has_alt then
            alt_match <- Ops.re_search_alt answer ;;
            Ok match alt_match with
               | Some group => PStr group
               | None => answer
               end
          else Ok answer) ;;
       Ok (dict_set (py "student_answer") answer formatted)) ;;
  Ok match dict_get (py "course") (q_items q) with
     | Some course => dict_set (py "course") course formatted
     | None => formatted
     end.

(** [format_question_for_agent]; [json_dumps] is [json.dumps] with
    [ensure_ascii=False]. *)
Definition format_question_for_agent (json_dumps : pyval -> result pystr)
    (q : question) : result pystr :=
  formatted <- formatted_question q ;;
  json_dumps (PDict formatted).

(** The agent as a task reaches it (lines 85-117): the question is
    formatted first, inside the [try], and the text goes to the runner;
    [engine] is the reply of the runner to the text that task [task] sends
    in its attempt [attempt]. *)
Definition agent_behind_format (json_dumps : pyval -> result pystr)
    (engine : nat -> nat -> pystr -> agent_reply)
  : nat -> nat -> question -> agent_reply :=
  fun task attempt q =>
    match format_question_for_agent json_dumps q with
    | Ok agent_input => engine task attempt agent_input
    | Raise e => Crashed e
    end.

(** ** The database router (main/db_router.py) *)

Module Router.

(** A model class, as far as the router looks at it:
    [model._meta.model_name]. *)
Record model := mk_model { model_name : pystr }.

Definition tutor_models : list pystr :=
  [py "tutorchatsession"; py "tutorchatmessage"].

(** [name in self.tutor_models] *)
Definition is_tutor_model (name : pystr) : bool :=
  existsb (pystr_eqb name) tutor_models.

Definition TUTOR : pystr := py "tutor".
Definition DEFAULT : pystr := py "default".

Definition db_for_read (m : model) : pystr :=
  if is_tutor_model (model_name m) then TUTOR else DEFAULT.

Definition db_for_write (m : model) : pystr :=
  if is_tutor_model (model_name m) then TUTOR else DEFAULT.

Definition allow_relation (obj1 obj2 : model) : bool :=
  let db1 := if is_tutor_model (model_name obj1) then TUTOR else DEFAULT in
  let db2 := if is_tutor_model (model_name obj2) then TUTOR else DEFAULT in
  pystr_eqb db1 db2.

(** [model_name] is [None] when Django asks about a migration that names no
    model; [None] is in no set of names. *)
Definition allow_migrate (db : pystr) (app_label : pystr)
    (model_name : option pystr) : bool :=
  if match model_name with
     | Some name => is_tutor_model name
     | None => false
     end
  then pystr_eqb db TUTOR
  else pystr_eqb db DEFAULT.

End Router.

(** ** The two grading endpoints *)

Definition FINAL_WEBHOOK_URL : pystr :=
  py "https://n8nyti.duckdns.org/webhook/final_grade".

(** How the body of an endpoint ends: it returns a value, raises
    [HTTPException], or lets another exception through. *)
Inductive endpoint_result (A : Type) :=
| Returns (content : A)
| RaisesHTTPException (status_code : Z) (detail : pystr)
| RaisesOther (e : exn).
Arguments Returns {A} content.
Arguments RaisesHTTPException {A} status_code detail.
Arguments RaisesOther {A} e.

(** The [JSONResponse] of [POST /grade]. *)
Record acknowledgment := mk_acknowledgment {
  ack_status_code : Z;
  ack_status : pystr;
  ack_message : pystr;
  ack_questions_received : nat
}.

(** A call of [process_all_questions] left with [BackgroundTasks], to run
    after the response is sent. *)
Record background_task := mk_background_task {
  bg_questions : list question;
  bg_callback_url : pystr
}.

(** [POST /grade] *)
Definition grade_questions (questions : list question)
  : endpoint_result acknowledgment * list background_task :=
  match questions with
  | [] => (RaisesHTTPException 400 (py "No questions provided"), [])
  | _ :: _ =>
      (Returns
         {| ack_status_code := 202;
            ack_status := py "accepted";
            ack_message :=
              py "Grading " ++ str_of_Z (Z.of_nat (List.length questions))
                ++ py " questions";
            ack_questions_received := List.length questions |},
       [ {| bg_questions := questions;
            bg_callback_url := FINAL_WEBHOOK_URL |} ])
  end.

(** ** A small world to run the pipeline in *)

Module Demo.

Definition url : pystr := py "https://example.org/webhook/final_grade".

Definition elapsed : pyfloat := Float64.of_decimal false 125 (-2).
Definition now : pystr := py "2025-01-01T12:00:00Z".

(** Three questions with orders 0, 1 and 2, and one without an order. *)
Definition question0 : question :=
  {| q_order := Some 0;
     q_points_possible := Some (PInt 5);
     q_items := [(py "question_text", PStr (py "Mika on valon nopeus?"));
                 (py "answer", PStr (py "300000 km/s"))] |}.
Definition question1 : question :=
  {| q_order := Some 1;
     q_points_possible := None;
     q_items := [(py "question_text", PStr (py "Selita voima."))] |}.
Definition question2 : question :=
  {| q_order := Some 2;
     q_points_possible := Some (PInt 4);
     q_items := [(py "question_text", PStr (py "Laske nopeus."))] |}.
Definition unordered : question :=
  {| q_order := None;
     q_points_possible := None;
     q_items := [(py "question_text", PStr (py "Mika on massa?"))] |}.

(** A well-formed answer of the agent; it proposes an identifier of its
    own. *)
Definition graded_fields : pystr :=
  pyq "'question_id': 99, 'points_earned': 2, 'points_possible': 3, 'feedback': 'ok', 'correct_answer': '42'".
Definition graded_object : pystr :=
  LBRACE :: graded_fields ++ [RBRACE].

(** The same object inside prose, with and without braces in the prose. *)
Definition prose_before : pystr := py "Here is my grading: ".
Definition prose_after : pystr := py " I hope this helps.".
Definition braced_prose_after : pystr := py " (rubric {A})".
Definition graded_in_prose : pystr :=
  prose_before ++ graded_object ++ prose_after.
Definition graded_in_braced_prose : pystr :=
  prose_before ++ graded_object ++ braced_prose_after.

(** Answers that hold no object. *)
Definition refusal : pystr := py "I cannot grade this answer.".
Definition not_json : pystr := pyq "{points_earned = 2}".

(** Agents. *)
Definition agent_says (text : pystr) : nat -> nat -> question -> agent_reply :=
  fun _ _ _ => Responded text.
Definition agent_times_out : nat -> nat -> question -> agent_reply :=
  fun _ _ _ => TimedOut.
(** Task 1 never gets an answer; the other tasks do at once. *)
Definition agent_fails_task1 : nat -> nat -> question -> agent_reply :=
  fun task _ _ =>
    if Nat.eqb task 1
    then Crashed (mk_exn TransportError (py "connection reset"))
    else Responded (pyq "{'points_earned': 3, 'points_possible': 3}").

(** Callbacks. *)
Definition callback_ok : nat -> pystr -> payload -> http_reply :=
  fun _ _ _ => HttpResponse 200.
Definition callback_down : nat -> pystr -> payload -> http_reply :=
  fun _ _ _ => HttpFailed (mk_exn TransportError (py "connection refused")).
(** Fails twice, then accepts. *)
Definition callback_flaky : nat -> pystr -> payload -> http_reply :=
  fun attempt _ _ =>
    if Nat.ltb attempt 2 then HttpResponse 503 else HttpResponse 200.

(** An agent whose first run crashes and whose later runs answer. *)
Definition agent_answers_second_time : nat -> nat -> question -> agent_reply :=
  fun _ attempt _ =>
    if Nat.eqb attempt 0
    then Crashed (mk_exn TransportError (py "connection reset"))
    else Responded graded_object.

(** Answers of the agent that are objects, but poor ones. *)
Definition empty_object : pystr := py "{}".
Definition null_points : pystr := pyq "{'points_earned': null}".

(** A runner that echoes nothing useful, whatever it is sent. *)
Definition engine_says (text : pystr) : nat -> nat -> pystr -> agent_reply :=
  fun _ _ _ => Responded text.

(** A multiple-choice question on which nothing was selected. *)
Definition choice_question : question :=
  {| q_order := Some 0;
     q_points_possible := None;
     q_items := [(py "question_text", PStr (py "Valitse oikea yksikko."));
                 (py "question_type", PStr (py "multiple_choice"));
                 (py "choices", PList [PStr (py "m/s"); PStr (py "kg")]);
                 (py "selected_answers", PNone)] |}.

(** A text question answered with a picture of the formula editor. *)
Definition picture_before : pystr := pyq "<p>Vastaus: <img src='f.png' ".
Definition picture_alt : pystr := py "v = 3 m/s".
Definition picture_after : pystr := pyq " width='40'> eli noin 11 km/h</p>".
Definition picture_answer : pystr :=
  picture_before ++ Ops.ALT_OPEN ++ picture_alt
    ++ Ops.QUOTE :: picture_after.
Definition picture_question : question :=
  {| q_order := Some 1;
     q_points_possible := None;
     q_items := [(py "question_text", PStr (py "Laske nopeus."));
                 (py "question_type", PStr (py "text"));
                 (py "answer", PStr picture_answer);
                 (py "course", PStr (py "FY1"))] |}.

(** A text question whose answer is [null]. *)
Definition unanswered_question : question :=
  {| q_order := Some 2;
     q_points_possible := Some (PInt 6);
     q_items := [(py "question_text", PStr (py "Selita voima."));
                 (py "answer", PNone)] |}.

End Demo.

Section Pipeline.

Set Default Proof Using "Type".

(** The library calls of [parse_agent_response]: [json.loads] and
    [float(...)]. *)
Variable json_loads : pystr -> result pyval.
Variable py_float : pyval -> result pyfloat.

(** The grading agent: the reply to the run that task [task] starts in its
    attempt [attempt] for [question]. *)
Variable run_agent : forall (task attempt : nat) (q : question), agent_reply.

(** The callback endpoint: the reply to the POST of attempt [attempt]. *)
Variable http_post :
  forall (attempt : nat) (url : pystr) (body : payload), http_reply.

(** The clock: [round(elapsed_time, 2)] and the formatted UTC time. *)
Variable elapsed_rounded : pyfloat.
Variable utc_now : pystr.

(** The dict returned when parsing fails (lines 213-220). *)
Definition default_parsed (order : Z) : parsed :=
  {| p_question_id := order;
     p_order := order;
     p_points_earned := PInt 0;
     p_points_possible := PInt 3;
     p_feedback := PStr FEEDBACK_PARSE_FAILED;
     p_correct_answer := PStr [] |}.

Definition parse_agent_response (response : pystr) (order : Z)
  : result parsed :=
  let attempt :=
    let response := strip response in
    let start_idx := find LBRACE response in
    let end_idx := rfind RBRACE response + 1 in
    if negb (start_idx =? -1) && (end_idx >? start_idx) then
      let json_str := slice response start_idx end_idx in
      result <- json_loads json_str ;;
      points_earned_raw <- py_get result (py "points_earned") (PInt 0) ;;
      points_earned <- py_float points_earned_raw ;;
      points_possible_raw <- py_get result (py "points_possible") (PInt 3) ;;
      points_possible <- py_float points_possible_raw ;;
      feedback <- py_get result (py "feedback") (PStr []) ;;
      correct_answer <- py_get result (py "correct_answer") (PStr []) ;;
      Ok (Some {| p_question_id := order;
                  p_order := order;
                  p_points_earned := PFloat points_earned;
                  p_points_possible := PFloat points_possible;
                  p_feedback := feedback;
                  p_correct_answer := correct_answer |})
    else Ok None
  in
  (* except json.JSONDecodeError: log and fall through *)
  match attempt with
  | Ok (Some r) => Ok r
  | Ok None => Ok (default_parsed order)
  | Raise e => if is_JSONDecodeError e then Ok (default_parsed order)
               else Raise e
  end.

(** [question.get("order", 0)] *)
Definition question_order (q : question) : Z :=
  match q_order q with Some o => o | None => 0 end.

(** The dict returned once every retry has failed (lines 136-145). *)
Definition retries_failed (q : question) (e : exn) : outcome :=
  let order := question_order q in
  {| question_id := order;
     order := order;
     points_earned := PInt 0;
     points_possible :=
       match q_points_possible q with Some v => v | None => PInt 3 end;
     feedback := PStr FEEDBACK_RETRIES_FAILED;
     correct_answer := PStr [];
     status := StatusError;
     error_message := Some (exn_str e) |}.

(** The body of the [try] of one attempt (lines 83-127). *)
Definition grade_attempt (q : question) (task attempt : nat)
  : result outcome :=
  let order := question_order q in
  response_text <-
    match run_agent task attempt q with
    | Responded text => Ok text
    | TimedOut =>
        Raise (mk_exn PlainException
                 (py "Timeout after " ++ str_of_Z REQUEST_TIMEOUT ++ py "s"))
    | Crashed e => Raise e
    end ;;
  result <- parse_agent_response response_text order ;;
  Ok (with_status result StatusSuccess None).

(** [attempt < MAX_RETRIES - 1] *)
Definition retry_left (attempt : nat) : bool :=
  Z.of_nat attempt <? Z.of_nat MAX_RETRIES - 1.

(** The [for attempt in ...] loop of [grade_single_question].  A loop that
    runs out of attempts falls off the end of the function, which then
    returns [None]. *)
Fixpoint grade_loop (q : question) (task : nat) (attempts : list nat)
  : result (option outcome) * list grade_event :=
  match attempts with
  | [] => (Ok None, [])
  | attempt :: rest =>
      match grade_attempt q task attempt with
      | Ok r => (Ok (Some r), [AgentCall attempt])
      | Raise e =>
          if retry_left attempt then
            let '(r, log) := grade_loop q task rest in
            (r, AgentCall attempt
                  :: GradeSleep (RETRY_DELAY * (Z.of_nat attempt + 1))
                  :: log)
          else (Ok (Some (retries_failed q e)), [AgentCall attempt])
      end
  end.

(** The body of [grade_single_question] for the task numbered [task]; the
    semaphore around it is in [Section Pool] below. *)
Definition grade_single_question (q : question) (task : nat)
  : result (option outcome) * list grade_event :=
  grade_loop q task (range MAX_RETRIES).

(** [asyncio.gather] with [return_exceptions=True]: one entry per task,
    in the order of the tasks, holding what the task returned or the
    exception it raised.  [Section Pool] shows that the entries do not
    depend on how the tasks interleave. *)
Fixpoint gather_from (task : nat) (questions : list question)
  : list (result (option outcome)) :=
  match questions with
  | [] => []
  | q :: rest =>
      fst (grade_single_question q task) :: gather_from (S task) rest
  end.

Definition gather (questions : list question)
  : list (result (option outcome)) :=
  gather_from 0 questions.

(** [questions[i]] *)
Definition question_at (questions : list question) (i : nat)
  : result question :=
  match nth_error questions i with
  | Some q => Ok q
  | None => Raise (mk_exn IndexError (py "list index out of range"))
  end.

(** The dict built for an exception that a task let through (lines
    255-264). *)
Definition unhandled (i : nat) (q : question) (e : exn) : outcome :=
  {| question_id := Z.of_nat i;
     order := match q_order q with Some o => o | None => Z.of_nat i end;
     points_earned := PInt 0;
     points_possible := PInt 3;
     feedback := PStr FEEDBACK_UNHANDLED;
     correct_answer := PStr [];
     status := StatusError;
     error_message := Some (exn_str e) |}.

(** The loop of lines 251-266 from index [i] on. *)
Fixpoint handle_exceptions (questions : list question) (i : nat)
    (results : list (result (option outcome)))
  : result (list (option outcome)) :=
  match results with
  | [] => Ok []
  | r :: rest =>
      x <- match r with
           | Raise e =>
               q <- question_at questions i ;;
               Ok (Some (unhandled i q e))
           | Ok v => Ok v
           end ;;
      xs <- handle_exceptions questions (S i) rest ;;
      Ok (x :: xs)
  end.

(** The keys [x["order"]] that [sort] computes for every element before it
    compares any: [None] is not subscriptable. *)
Fixpoint sort_keys (l : list (option outcome)) : result (list outcome) :=
  match l with
  | [] => Ok []
  | Some r :: t => rs <- sort_keys t ;; Ok (r :: rs)
  | None :: _ =>
      Raise (mk_exn TypeError (py "'NoneType' object is not subscriptable"))
  end.

Fixpoint insert_by_order (x : outcome) (l : list outcome) : list outcome :=
  match l with
  | [] => [x]
  | y :: t => if order x <=? order y then x :: l
              else y :: insert_by_order x t
  end.

(** [list.sort(key=lambda x: x["order"])]: the sort is stable, and over
    integer keys a stable sort has one possible result. *)
Fixpoint sort_by_order (l : list outcome) : list outcome :=
  match l with
  | [] => []
  | x :: t => insert_by_order x (sort_by_order t)
  end.

(** Lines 272-276 and again 284-285: [result["question_id"] =
    result["order"]] for every result. *)
Definition reassign_question_ids (l : list outcome) : list outcome :=
  map (fun r => set_question_id r (order r)) l.

Definition Z_list_eqb (a b : list Z) : bool :=
  if list_eq_dec Z.eq_dec a b then true else false.

(** Lines 278-285. *)
Definition verify_sequential (l : list outcome) : list outcome :=
  let orders := map order l in
  let expected_orders := map Z.of_nat (range (List.length l)) in
  if negb (Z_list_eqb orders expected_orders)
  then reassign_question_ids l
  else l.

Definition count_status (s : grade_status) (l : list outcome) : nat :=
  List.length
    (filter (fun r => match status r, s with
                      | StatusSuccess, StatusSuccess => true
                      | StatusError, StatusError => true
                      | _, _ => false
                      end) l).

(** Lines 291-300. *)
Definition build_payload (questions : list question)
    (processed_results : list outcome) : payload :=
  [ (py "results", VResults processed_results);
    (py "metadata",
      VMetadata {| total_questions := List.length questions;
                   successful := count_status StatusSuccess processed_results;
                   failed := count_status StatusError processed_results;
                   processing_time_seconds := elapsed_rounded;
                   timestamp := utc_now |}) ].

(** The body of the [try] of one delivery attempt (lines 306-313). *)
Definition post_attempt (attempt : nat) (callback_url : pystr)
    (final_payload : payload) : result unit :=
  match http_post attempt callback_url final_payload with
  | HttpResponse status_code => raise_for_status status_code
  | HttpFailed e => Raise e
  end.

(** The [for attempt in ...] loop of lines 303-319; it gives the final
    value of [webhook_success]. *)
Fixpoint send_loop (callback_url : pystr) (final_payload : payload)
    (attempts : list nat) : result bool * list delivery_event :=
  match attempts with
  | [] => (Ok false, [])
  | attempt :: rest =>
      match post_attempt attempt callback_url final_payload with
      | Ok _ => (Ok true, [Post callback_url final_payload])
      | Raise e =>
          let pause := if retry_left attempt
                       then [DeliverySleep RETRY_DELAY] else [] in
          let '(r, log) := send_loop callback_url final_payload rest in
          (r, Post callback_url final_payload :: pause ++ log)
      end
  end.

(** Lines 302-319. *)
Definition send_to_webhook (callback_url : pystr) (final_payload : payload)
  : result bool * list delivery_event :=
  send_loop callback_url final_payload (range MAX_RETRIES).

(** Lines 250-322: from the gathered results to the returned payload. *)
Definition assemble_and_send (questions : list question)
    (callback_url : pystr) (results : list (result (option outcome)))
  : result payload * list delivery_event :=
  match
    (processed <- handle_exceptions questions 0 results ;;
     keyed <- sort_keys processed ;;
     Ok (verify_sequential
           (reassign_question_ids (sort_by_order keyed))))
  with
  | Raise e => (Raise e, [])
  | Ok processed_results =>
      let final_payload := build_payload questions processed_results in
      let '(sent, log) := send_to_webhook callback_url final_payload in
      (webhook_success <- sent ;;
       Ok (dict_set (py "webhook_sent") (VBool webhook_success)
             final_payload),
       log)
  end.

(** The whole function.  The session service, the runner and the semaphore
    of lines 231-239 are taken to be built without an exception. *)
Definition process_all_questions (questions : list question)
    (callback_url : pystr) : result payload * list delivery_event :=
  assemble_and_send questions callback_url (gather questions).

(** *** The tasks behind the semaphore *)

(** One task runs from one suspension point to the next. *)
Definition advance (q : question) (task : nat) (s : task_state)
  : option task_state :=
  match s with
  | Waiting => Some (loop_head (range MAX_RETRIES))
  | Attempting attempt rest =>
      Some match grade_attempt q task attempt with
           | Ok r => Done (Ok (Some r))
           | Raise e =>
               if retry_left attempt then BackingOff rest
               else Done (Ok (Some (retries_failed q e)))
           end
  | BackingOff rest => Some (loop_head rest)
  | Done _ => None
  end.

(** The event loop resumes task [i].  A waiting task can only be resumed
    when the semaphore has a free slot, which it takes; a task that ends
    gives its slot back. *)
Definition step (questions : list question) (p : pool) (i : nat)
  : option pool :=
  match nth_error (tasks p) i, nth_error questions i with
  | Some s, Some q =>
      match advance q i s with
      | None => None
      | Some s' =>
          match s, permits p with
          | Waiting, O => None
          | Waiting, S free =>
              Some {| permits := release_if_done s' free;
                      tasks := list_set i s' (tasks p) |}
          | _, free =>
              Some {| permits := release_if_done s' free;
                      tasks := list_set i s' (tasks p) |}
          end
      end
  | _, _ => None
  end.

(** A schedule names the task resumed at each turn of the event loop. *)
Fixpoint run (questions : list question) (schedule : list nat) (p : pool)
  : option pool :=
  match schedule with
  | [] => Some p
  | i :: rest =>
      match step questions p i with
      | Some p' => run questions rest p'
      | None => None
      end
  end.

(** The pool when [gather] starts: [Semaphore(MAX_PARALLEL_TASKS)] and one
    task per question. *)
Definition start (questions : list question) : pool :=
  {| permits := MAX_PARALLEL_TASKS;
     tasks := map (fun _ => Waiting) questions |}.

(** *** Notions the properties below are stated with *)

(** The text [parse_agent_response] hands to [json.loads], when it finds a
    span from a first opening brace to a last closing brace. *)
Definition json_span (response : pystr) : option pystr :=
  let response := strip response in
  let start_idx := find LBRACE response in
  let end_idx := rfind RBRACE response + 1 in
  if negb (start_idx =? -1) && (end_idx >? start_idx)
  then Some (slice response start_idx end_idx)
  else None.

(** No span is found, or decoding the span fails with [JSONDecodeError]. *)
Definition malformed (response : pystr) : Prop :=
  match json_span response with
  | None => True
  | Some span =>
      exists e, json_loads span = Raise e /\ is_JSONDecodeError e = true
  end.

(** Every attempt of the loop fails for task [task]. *)
Definition all_attempts_fail (q : question) (task : nat) : Prop :=
  forall attempt, (attempt < MAX_RETRIES)%nat ->
                  exists e, grade_attempt q task attempt = Raise e.

(** The ["results"] of a payload. *)
Definition results_in (p : payload) : option (list outcome) :=
  match dict_get (py "results") p with
  | Some (VResults rs) => Some rs
  | _ => None
  end.

(** The ["webhook_sent"] of a payload, when it is there and a boolean. *)
Definition webhook_sent_in (p : payload) : option bool :=
  match dict_get (py "webhook_sent") p with
  | Some (VBool b) => Some b
  | _ => None
  end.

Definition is_post (ev : delivery_event) : bool :=
  match ev with Post _ _ => true | DeliverySleep _ => false end.

(** The POSTs of a delivery log. *)
Definition posts (log : list delivery_event) : list delivery_event :=
  filter is_post log.

(** The callback answers the POST of [attempt] with a 2xx status. *)
Definition answered_2xx (attempt : nat) (url : pystr) (body : payload)
  : Prop :=
  exists status_code,
    http_post attempt url body = HttpResponse status_code
    /\ 200 <= status_code <= 299.

(** The result a task is bound to end with, from where it stands. *)
Definition destined (q : question) (task : nat) (s : task_state)
  : result (option outcome) :=
  match s with
  | Waiting => fst (grade_single_question q task)
  | Attempting attempt rest => fst (grade_loop q task (attempt :: rest))
  | BackingOff rest => fst (grade_loop q task rest)
  | Done r => r
  end.


(** The tasks of [p] are those of [questions], each bound for what
    [grade_single_question] returns for its question. *)
Definition on_course (questions : list question) (p : pool) : Prop :=
  List.length (tasks p) = List.length questions
  /\ forall i s q,
       nth_error (tasks p) i = Some s -> nth_error questions i = Some q ->
       destined q i s = fst (grade_single_question q i).

(** How many turns a task can still take, at most. *)
Definition turns_left (s : task_state) : nat :=
  match s with
  | Waiting => 2 * MAX_RETRIES + 1
  | Attempting _ rest => 2 * List.length rest + 2
  | BackingOff rest => 2 * List.length rest + 1
  | Done _ => 0
  end.

Definition pool_turns_left (p : pool) : nat :=
  list_sum (map turns_left (tasks p)).

(** *** The endpoints that run the pipeline *)

(** The background task, once [BackgroundTasks] runs it. *)
Definition run_background (t : background_task)
  : result payload * list delivery_event :=
  process_all_questions (bg_questions t) (bg_callback_url t).

(** [POST /grade/sync] *)
Definition grade_questions_sync (questions : list question)
  : endpoint_result payload * list delivery_event :=
  match questions with
  | [] => (RaisesHTTPException 400 (py "No questions provided"), [])
  | _ :: _ =>
      let '(r, log) := process_all_questions questions FINAL_WEBHOOK_URL in
      (match r with
       | Ok result => Returns result
       | Raise e => RaisesOther e
       end, log)
  end.

(** What a task does when its attempt [k] is the first that returns: the
    attempts 0..k, with a pause that grows by [RETRY_DELAY] after each
    failed one. *)
Definition retry_log (k : nat) : list grade_event :=
  flat_map (fun j => [AgentCall j;
                      GradeSleep (RETRY_DELAY * (Z.of_nat j + 1))])
    (seq 0 k)
  ++ [AgentCall k].

(** Every attempt of task [task] raises. *)
Definition exhausted (q : question) (task : nat) : bool :=
  forallb (fun attempt => match grade_attempt q task attempt with
                          | Raise _ => true
                          | Ok _ => false
                          end)
    (range MAX_RETRIES).

(** The questions, from task [task] on, whose attempts all raise. *)
Fixpoint count_exhausted (task : nat) (questions : list question) : nat :=
  match questions with
  | [] => 0
  | q :: rest =>
      (if exhausted q task then 1 else 0) + count_exhausted (S task) rest
  end.

(** *** Strings: [strip], [find], [rfind] and slices *)

(** A proof that needs nothing of the world forgets it, so that no tactic
    picks one of its parts up. *)
Ltac worldless :=
  try clear json_loads; try clear py_float; try clear run_agent;
  try clear http_post; try clear elapsed_rounded; try clear utc_now.

Lemma char_eqb_eq (a b : char) : char_eqb a b = true <-> a = b.
Proof. apply N.eqb_eq. Qed.

Lemma char_eqb_refl (a : char) : char_eqb a a = true.
Proof. apply N.eqb_refl. Qed.

Lemma char_eqb_neq (a b : char) : a <> b -> char_eqb a b = false.
Proof. intro H. apply N.eqb_neq. exact H. Qed.

Lemma lstrip_app_nonspace (pre : pystr) (c : char) (x : pystr) :
  is_space c = false -> lstrip (pre ++ c :: x) = lstrip pre ++ c :: x.
Proof.
  intro Hc. induction pre as [|a pre IH]; simpl.
  - now rewrite Hc.
  - destruct (is_space a); [exact IH | reflexivity].
Qed.

Lemma rstrip_app_nonspace (x : pystr) (c : char) (post : pystr) :
  is_space c = false -> rstrip (x ++ c :: post) = x ++ c :: rstrip post.
Proof.
  intro Hc. unfold rstrip.
  replace (rev (x ++ c :: post)) with (rev post ++ c :: rev x).
  - rewrite (lstrip_app_nonspace _ _ _ Hc), rev_app_distr. simpl.
    now rewrite rev_involutive, <- app_assoc.
  - rewrite rev_app_distr. simpl. now rewrite <- app_assoc.
Qed.

Lemma lstrip_incl (s : pystr) (c : char) : In c (lstrip s) -> In c s.
Proof.
  worldless.
  induction s as [|a s IH]; simpl; [tauto|].
  destruct (is_space a); simpl; intuition.
Qed.

Lemma rstrip_incl (s : pystr) (c : char) : In c (rstrip s) -> In c s.
Proof.
  unfold rstrip. intro H. apply in_rev in H. apply lstrip_incl in H.
  now apply in_rev in H.
Qed.

Lemma index_of_absent (c : char) (s : pystr) :
  ~ In c s -> index_of c s = None.
Proof.
  induction s as [|a s IH]; simpl; [reflexivity|]. intro H.
  rewrite char_eqb_neq by (intro; apply H; now left).
  rewrite IH by (intro; apply H; now right). reflexivity.
Qed.

Lemma last_index_of_absent (c : char) (s : pystr) :
  ~ In c s -> last_index_of c s = None.
Proof.
  induction s as [|a s IH]; simpl; [reflexivity|]. intro H.
  rewrite IH by (intro; apply H; now right).
  now rewrite char_eqb_neq by (intro; apply H; now left).
Qed.

Lemma index_of_first (c : char) (pre x : pystr) :
  ~ In c pre -> index_of c (pre ++ c :: x) = Some (List.length pre).
Proof.
  induction pre as [|a pre IH]; simpl; intro H.
  - now rewrite char_eqb_refl.
  - rewrite char_eqb_neq by (intro; apply H; now left).
    rewrite IH by (intro; apply H; now right). reflexivity.
Qed.

Lemma last_index_of_last (c : char) (x post : pystr) :
  ~ In c post -> last_index_of c (x ++ c :: post) = Some (List.length x).
Proof.
  intro H. induction x as [|a x IH]; simpl.
  - now rewrite (last_index_of_absent _ _ H), char_eqb_refl.
  - now rewrite IH.
Qed.

Lemma slice_middle {A : Type} (pre mid post : list A) :
  slice (pre ++ mid ++ post) (Z.of_nat (List.length pre))
    (Z.of_nat (List.length pre + List.length mid)) = mid.
Proof.
  unfold slice, slice_bound. rewrite !length_app.
  destruct (Z.ltb_spec (Z.of_nat (List.length pre)) 0) as [Hneg|_];
    [lia|].
  destruct (Z.ltb_spec (Z.of_nat (List.length pre + List.length mid)) 0)
    as [Hneg|_]; [lia|].
  rewrite !Z.min_l by lia.
  replace (Z.to_nat (Z.of_nat (List.length pre + List.length mid)
                     - Z.of_nat (List.length pre)))
    with (List.length mid) by lia.
  rewrite Nat2Z.id, skipn_app, skipn_all, Nat.sub_diag. simpl.
  rewrite firstn_app, firstn_all, Nat.sub_diag. simpl.
  apply app_nil_r.
Qed.

Lemma strip_embedded (pre body post : pystr) :
  strip (pre ++ (LBRACE :: body ++ [RBRACE]) ++ post)
  = lstrip pre ++ (LBRACE :: body ++ [RBRACE]) ++ rstrip post.
Proof.
  unfold strip.
  replace (pre ++ (LBRACE :: body ++ [RBRACE]) ++ post)
    with (pre ++ LBRACE :: (body ++ RBRACE :: post))
    by (simpl; now rewrite <- !app_assoc).
  rewrite lstrip_app_nonspace by reflexivity.
  replace (lstrip pre ++ LBRACE :: body ++ RBRACE :: post)
    with ((lstrip pre ++ LBRACE :: body) ++ RBRACE :: post)
    by (now rewrite <- app_assoc).
  rewrite rstrip_app_nonspace by reflexivity.
  simpl. now rewrite <- !app_assoc.
Qed.

Lemma find_embedded (pre body post : pystr) :
  ~ In LBRACE pre ->
  find LBRACE (pre ++ (LBRACE :: body ++ [RBRACE]) ++ post)
  = Z.of_nat (List.length pre).
Proof.
  intro H. unfold find. simpl app.
  now rewrite (index_of_first _ _ _ H).
Qed.

Lemma rfind_embedded (pre body post : pystr) :
  ~ In RBRACE post ->
  rfind RBRACE (pre ++ (LBRACE :: body ++ [RBRACE]) ++ post) + 1
  = Z.of_nat (List.length pre + List.length (LBRACE :: body ++ [RBRACE])).
Proof.
  intro H. unfold rfind.
  replace (pre ++ (LBRACE :: body ++ [RBRACE]) ++ post)
    with ((pre ++ LBRACE :: body) ++ RBRACE :: post)
    by (simpl; now rewrite <- !app_assoc).
  rewrite (last_index_of_last _ _ _ H).
  simpl. rewrite !length_app. simpl. lia.
Qed.

(** The span found in a text that wraps a braced text in prose without the
    brace that would move the span's ends. *)
Lemma json_span_embedded (pre body post : pystr) :
  ~ In LBRACE pre -> ~ In RBRACE post ->
  json_span (pre ++ (LBRACE :: body ++ [RBRACE]) ++ post)
  = Some (LBRACE :: body ++ [RBRACE]).
Proof.
  intros Hpre Hpost. unfold json_span.
  rewrite strip_embedded.
  assert (Hpre' : ~ In LBRACE (lstrip pre))
    by (intro H; apply Hpre; now apply lstrip_incl).
  assert (Hpost' : ~ In RBRACE (rstrip post))
    by (intro H; apply Hpost; now apply rstrip_incl).
  rewrite (find_embedded _ _ _ Hpre'), (rfind_embedded _ _ _ Hpost').
  rewrite slice_middle.
  destruct (Z.eqb_spec (Z.of_nat (List.length (lstrip pre))) (-1)) as [E|_];
    [lia|].
  destruct (Z.gtb_spec
              (Z.of_nat (List.length (lstrip pre)
                         + List.length (LBRACE :: body ++ [RBRACE])))
              (Z.of_nat (List.length (lstrip pre)))) as [_|E];
    [reflexivity|].
  simpl in E. lia.
Qed.

(** *** [parse_agent_response] *)

(** The response matters to the parse only through the span found in it. *)
Lemma parse_agent_response_span (r1 r2 : pystr) (order : Z) :
  json_span r1 = json_span r2 ->
  parse_agent_response r1 order = parse_agent_response r2 order.
Proof.
  unfold json_span, parse_agent_response. cbv zeta.
  destruct (negb (find LBRACE (strip r1) =? -1)
            && (rfind RBRACE (strip r1) + 1 >? find LBRACE (strip r1)));
    destruct (negb (find LBRACE (strip r2) =? -1)
              && (rfind RBRACE (strip r2) + 1 >? find LBRACE (strip r2)));
    intro H; try discriminate; [|reflexivity].
  injection H as H. now rewrite H.
Qed.

Lemma parse_agent_response_no_span (response : pystr) (order : Z) :
  json_span response = None ->
  parse_agent_response response order = Ok (default_parsed order).
Proof.
  unfold json_span, parse_agent_response. cbv zeta.
  destruct (negb (find LBRACE (strip response) =? -1)
            && (rfind RBRACE (strip response) + 1
                >? find LBRACE (strip response)));
    [discriminate | reflexivity].
Qed.

Lemma parse_agent_response_undecodable (response span : pystr) (order : Z)
    (e : exn) :
  json_span response = Some span ->
  json_loads span = Raise e -> is_JSONDecodeError e = true ->
  parse_agent_response response order = Ok (default_parsed order).
Proof.
  unfold json_span, parse_agent_response. cbv zeta.
  destruct (negb (find LBRACE (strip response) =? -1)
            && (rfind RBRACE (strip response) + 1
                >? find LBRACE (strip response)));
    [|discriminate].
  intros H Hloads He. injection H as H. rewrite H, Hloads. simpl.
  now rewrite He.
Qed.

Lemma parse_agent_response_malformed (response : pystr) (order : Z) :
  malformed response ->
  parse_agent_response response order = Ok (default_parsed order).
Proof.
  unfold malformed. destruct (json_span response) as [span|] eqn:Hspan.
  - intros (e & Hloads & He).
    exact (parse_agent_response_undecodable _ _ _ _ Hspan Hloads He).
  - intros _. now apply parse_agent_response_no_span.
Qed.

(** Whatever the response holds, a parse that returns gives the caller's
    [order] as both identifiers. *)
Lemma parse_agent_response_ids (response : pystr) (order : Z) (r : parsed) :
  parse_agent_response response order = Ok r ->
  p_question_id r = order /\ p_order r = order.
Proof.
  unfold parse_agent_response. cbv zeta.
  destruct (negb (find LBRACE (strip response) =? -1)
            && (rfind RBRACE (strip response) + 1
                >? find LBRACE (strip response))).
  - destruct (json_loads _) as [v|e]; simpl.
    + destruct (py_get v (py "points_earned") (PInt 0)) as [a|e]; simpl;
        [|destruct (is_JSONDecodeError e); intro H; inversion H; now subst].
      destruct (py_float a) as [fa|e]; simpl;
        [|destruct (is_JSONDecodeError e); intro H; inversion H; now subst].
      destruct (py_get v (py "points_possible") (PInt 3)) as [b|e]; simpl;
        [|destruct (is_JSONDecodeError e); intro H; inversion H; now subst].
      destruct (py_float b) as [fb|e]; simpl;
        [|destruct (is_JSONDecodeError e); intro H; inversion H; now subst].
      destruct (py_get v (py "feedback") (PStr [])) as [c|e]; simpl;
        [|destruct (is_JSONDecodeError e); intro H; inversion H; now subst].
      destruct (py_get v (py "correct_answer") (PStr [])) as [d|e]; simpl;
        [|destruct (is_JSONDecodeError e); intro H; inversion H; now subst].
      intro H; inversion H; now subst.
    + destruct (is_JSONDecodeError e); intro H; inversion H; now subst.
  - intro H; inversion H; now subst.
Qed.


(** *** [grade_single_question] *)

Lemma grade_attempt_success (q : question) (task attempt : nat)
    (r : outcome) :
  grade_attempt q task attempt = Ok r ->
  question_id r = question_order q /\ order r = question_order q
  /\ status r = StatusSuccess /\ error_message r = None.
Proof.
  worldless.
  unfold grade_attempt.
  destruct (run_agent task attempt q) as [text| |e]; simpl;
    try discriminate.
  destruct (parse_agent_response text (question_order q)) as [p|e] eqn:Hp;
    simpl; [|discriminate].
  intro H. injection H as <-. simpl.
  destruct (parse_agent_response_ids _ _ _ Hp) as [-> ->]. tauto.
Qed.

Lemma grade_attempt_malformed (q : question) (task attempt : nat)
    (response : pystr) :
  run_agent task attempt q = Responded response ->
  malformed response ->
  grade_attempt q task attempt
  = Ok (with_status (default_parsed (question_order q)) StatusSuccess None).
Proof.
  intros Hrun Hbad. unfold grade_attempt. rewrite Hrun. simpl.
  now rewrite (parse_agent_response_malformed _ _ Hbad).
Qed.

(** The loop over [range(MAX_RETRIES)] never falls off its end: the task
    returns a dict, and never raises. *)
Lemma grade_single_question_returns (q : question) (task : nat) :
  exists o, fst (grade_single_question q task) = Ok (Some o)
            /\ question_id o = order o
            /\ order o = question_order q.
Proof.
  unfold grade_single_question. simpl.
  destruct (grade_attempt q task 0) as [r0|e0] eqn:H0; simpl.
  { exists r0. destruct (grade_attempt_success _ _ _ _ H0) as (-> & -> & _).
    auto. }
  destruct (grade_attempt q task 1) as [r1|e1] eqn:H1; simpl.
  { exists r1. destruct (grade_attempt_success _ _ _ _ H1) as (-> & -> & _).
    auto. }
  destruct (grade_attempt q task 2) as [r2|e2] eqn:H2; simpl.
  { exists r2. destruct (grade_attempt_success _ _ _ _ H2) as (-> & -> & _).
    auto. }
  exists (retries_failed q e2). auto.
Qed.

Lemma grade_single_question_exhausted (q : question) (task : nat) :
  all_attempts_fail q task ->
  exists e,
    grade_attempt q task (MAX_RETRIES - 1) = Raise e
    /\ grade_single_question q task
       = (Ok (Some (retries_failed q e)),
          [AgentCall 0; GradeSleep 2; AgentCall 1; GradeSleep 4;
           AgentCall 2]).
Proof.
  intro Hall.
  destruct (Hall 0%nat) as [e0 H0]; [unfold MAX_RETRIES; lia|].
  destruct (Hall 1%nat) as [e1 H1]; [unfold MAX_RETRIES; lia|].
  destruct (Hall 2%nat) as [e2 H2]; [unfold MAX_RETRIES; lia|].
  exists e2. split; [exact H2|].
  unfold grade_single_question. simpl. now rewrite H0, H1, H2.
Qed.


(** *** Sorting by [order] *)

Lemma insert_by_order_perm (x : outcome) (l : list outcome) :
  Permutation (insert_by_order x l) (x :: l).
Proof.
  induction l as [|y l IH]; simpl; [reflexivity|].
  destruct (order x <=? order y); [reflexivity|].
  rewrite IH. apply perm_swap.
Qed.

Lemma sort_by_order_perm (l : list outcome) :
  Permutation (sort_by_order l) l.
Proof.
  induction l as [|x l IH]; simpl; [reflexivity|].
  rewrite insert_by_order_perm. now constructor.
Qed.

Lemma insert_by_order_sorted (x : outcome) (l : list outcome) :
  Sorted Z.le (map order l) ->
  Sorted Z.le (map order (insert_by_order x l)).
Proof.
  induction l as [|y l IH]; simpl; intro Hs.
  - repeat constructor.
  - destruct (Z.leb_spec (order x) (order y)) as [Hle|Hgt]; simpl.
    + constructor; [exact Hs | constructor; exact Hle].
    + inversion Hs as [|? ? Hs' Hhd]; subst.
      constructor; [now apply IH|].
      destruct l as [|z l]; simpl.
      * constructor. lia.
      * destruct (Z.leb_spec (order x) (order z)); simpl; constructor.
        -- lia.
        -- inversion Hhd; subst. assumption.
Qed.

Lemma sort_by_order_sorted (l : list outcome) :
  Sorted Z.le (map order (sort_by_order l)).
Proof.
  induction l as [|x l IH]; simpl; [constructor|].
  now apply insert_by_order_sorted.
Qed.

(** A list of integers has one sorted arrangement. *)
Lemma sorted_perm_unique (l1 l2 : list Z) :
  Sorted Z.le l1 -> Sorted Z.le l2 -> Permutation l1 l2 -> l1 = l2.
Proof.
  intros H1 H2. apply Sorted_StronglySorted in H1; [|intros ? ? ?; lia].
  apply Sorted_StronglySorted in H2; [|intros ? ? ?; lia].
  revert l2 H2. induction H1 as [|a l1 Hs1 IH Ha]; intros l2 H2 Hp.
  - now apply Permutation_nil in Hp.
  - destruct H2 as [|b l2 Hs2 Hb].
    + apply Permutation_sym, Permutation_nil in Hp. discriminate.
    + assert (a = b) as ->.
      { assert (Hin1 : In a (b :: l2))
          by (apply (Permutation_in _ Hp); now left).
        assert (Hin2 : In b (a :: l1))
          by (apply (Permutation_in _ (Permutation_sym Hp)); now left).
        rewrite Forall_forall in Ha, Hb.
        destruct Hin1 as [->|Hin1]; [reflexivity|].
        destruct Hin2 as [->|Hin2]; [reflexivity|].
        specialize (Ha _ Hin2). specialize (Hb _ Hin1). lia. }
      f_equal. apply IH; [exact Hs2|].
      now apply Permutation_cons_inv in Hp.
Qed.

Lemma sorted_range (n : nat) : Sorted Z.le (map Z.of_nat (range n)).
Proof.
  unfold range. generalize 0%nat as k.
  induction n as [|n IH]; intro k; simpl; [constructor|].
  constructor; [apply IH|].
  destruct n; simpl; constructor. lia.
Qed.

(** *** Re-assigning [question_id] *)

Lemma reassign_question_ids_order (l : list outcome) :
  map order (reassign_question_ids l) = map order l.
Proof.
  unfold reassign_question_ids. rewrite map_map. reflexivity.
Qed.

Lemma reassign_question_ids_holds (l : list outcome) :
  Forall (fun r => question_id r = order r) (reassign_question_ids l).
Proof.
  unfold reassign_question_ids. apply Forall_forall. intros r Hin.
  apply in_map_iff in Hin. destruct Hin as (r0 & <- & _). reflexivity.
Qed.

Lemma reassign_question_ids_fixed (l : list outcome) :
  Forall (fun r => question_id r = order r) l ->
  reassign_question_ids l = l.
Proof.
  unfold reassign_question_ids.
  induction 1 as [|r l Hr _ IH]; simpl; [reflexivity|].
  rewrite IH. f_equal. destruct r; simpl in *. now subst.
Qed.

Lemma verify_sequential_cases (l : list outcome) :
  verify_sequential l = l \/ verify_sequential l = reassign_question_ids l.
Proof.
  unfold verify_sequential. destruct (negb _); auto.
Qed.

Lemma verify_sequential_order (l : list outcome) :
  map order (verify_sequential l) = map order l.
Proof.
  destruct (verify_sequential_cases l) as [-> | ->];
    [reflexivity | apply reassign_question_ids_order].
Qed.

Lemma verify_sequential_holds (l : list outcome) :
  Forall (fun r => question_id r = order r) l ->
  Forall (fun r => question_id r = order r) (verify_sequential l).
Proof.
  intro H. destruct (verify_sequential_cases l) as [-> | ->];
    [exact H | apply reassign_question_ids_holds].
Qed.

Lemma verify_sequential_fixed (l : list outcome) :
  Forall (fun r => question_id r = order r) l -> verify_sequential l = l.
Proof.
  intro H. destruct (verify_sequential_cases l) as [-> | ->];
    [reflexivity | now apply reassign_question_ids_fixed].
Qed.


(** *** Delivery *)

Lemma post_attempt_ok (attempt : nat) (url : pystr) (body : payload) :
  post_attempt attempt url body = Ok tt <-> answered_2xx attempt url body.
Proof.
  unfold post_attempt, answered_2xx, raise_for_status. split.
  - destruct (http_post attempt url body) as [code|e]; [|discriminate].
    destruct (Z.leb_spec 200 code); destruct (Z.leb_spec code 299);
      simpl; try discriminate.
    intros _. exists code. split; [reflexivity | lia].
  - intros (code & -> & Hlo & Hhi).
    destruct (Z.leb_spec 200 code); destruct (Z.leb_spec code 299);
      simpl; try lia. reflexivity.
Qed.

Lemma post_attempt_cases (attempt : nat) (url : pystr) (body : payload) :
  post_attempt attempt url body = Ok tt
  \/ exists e, post_attempt attempt url body = Raise e.
Proof.
  destruct (post_attempt attempt url body) as [[]|e]; eauto.
Qed.

(** The four ways the delivery loop can go. *)
Lemma send_to_webhook_cases (url : pystr) (body : payload) :
  let P := Post url body in
  let S := DeliverySleep RETRY_DELAY in
  (post_attempt 0 url body = Ok tt
   /\ send_to_webhook url body = (Ok true, [P]))
  \/ ((exists e, post_attempt 0 url body = Raise e)
      /\ post_attempt 1 url body = Ok tt
      /\ send_to_webhook url body = (Ok true, [P; S; P]))
  \/ ((exists e, post_attempt 0 url body = Raise e)
      /\ (exists e, post_attempt 1 url body = Raise e)
      /\ post_attempt 2 url body = Ok tt
      /\ send_to_webhook url body = (Ok true, [P; S; P; S; P]))
  \/ ((exists e, post_attempt 0 url body = Raise e)
      /\ (exists e, post_attempt 1 url body = Raise e)
      /\ (exists e, post_attempt 2 url body = Raise e)
      /\ send_to_webhook url body = (Ok false, [P; S; P; S; P])).
Proof.
  intros P S. unfold send_to_webhook. simpl.
  destruct (post_attempt_cases 0 url body) as [H0|[e0 H0]]; rewrite H0.
  { left. auto. }
  destruct (post_attempt_cases 1 url body) as [H1|[e1 H1]]; rewrite H1.
  { right; left. eauto. }
  destruct (post_attempt_cases 2 url body) as [H2|[e2 H2]]; rewrite H2.
  { right; right; left. eauto 6. }
  right; right; right. eauto 8.
Qed.

(** *** From the gathered results to the payload *)

Lemma gather_from_nth (task : nat) (questions : list question) (i : nat) :
  nth_error (gather_from task questions) i
  = option_map (fun q => fst (grade_single_question q (task + i)))
      (nth_error questions i).
Proof.
  revert task i. induction questions as [|q qs IH]; intros task i.
  - now destruct i.
  - destruct i as [|i]; simpl.
    + now rewrite Nat.add_0_r.
    + rewrite IH. now rewrite Nat.add_succ_comm.
Qed.

(** Every task returns a dict whose identifiers are its question's
    [order]. *)
Lemma gather_from_outcomes (task : nat) (questions : list question) :
  exists outs,
    gather_from task questions = map (fun o => Ok (Some o)) outs
    /\ Forall (fun o => question_id o = order o) outs
    /\ map order outs = map question_order questions.
Proof.
  revert task. induction questions as [|q qs IH]; intro task.
  - exists []. simpl. auto.
  - destruct (IH (S task)) as (outs & Hg & Hid & Hord).
    destruct (grade_single_question_returns q task) as (o & Ho & Hq & Hqo).
    exists (o :: outs). simpl. rewrite Ho, Hg, Hqo, Hord. auto.
Qed.

Lemma handle_exceptions_returned (questions : list question) (i : nat)
    (outs : list (option outcome)) :
  handle_exceptions questions i (map Ok outs) = Ok outs.
Proof.
  revert i. induction outs as [|o outs IH]; intro i; simpl; [reflexivity|].
  now rewrite IH.
Qed.

Lemma sort_keys_some (outs : list outcome) :
  sort_keys (map Some outs) = Ok outs.
Proof.
  induction outs as [|o outs IH]; simpl; [reflexivity|]. now rewrite IH.
Qed.

Lemma send_to_webhook_returns (url : pystr) (body : payload) :
  exists b log, send_to_webhook url body = (Ok b, log).
Proof.
  destruct (send_to_webhook_cases url body)
    as [(_ & H)|[(_ & _ & H)|[(_ & _ & _ & H)|(_ & _ & _ & H)]]];
    rewrite H; eauto.
Qed.

(** What [process_all_questions] returns, for every batch: the outcomes of
    the tasks sorted by [order], wrapped with the metadata and the flag of
    the delivery. *)
Lemma process_all_questions_returns (questions : list question)
    (url : pystr) :
  exists outs b log,
    gather questions = map (fun o => Ok (Some o)) outs
    /\ Forall (fun o => question_id o = order o) outs
    /\ map order outs = map question_order questions
    /\ send_to_webhook url (build_payload questions (sort_by_order outs))
       = (Ok b, log)
    /\ process_all_questions questions url
       = (Ok (dict_set (py "webhook_sent") (VBool b)
                (build_payload questions (sort_by_order outs))),
          log).
Proof.
  destruct (gather_from_outcomes 0 questions) as (outs & Hg & Hid & Hord).
  destruct (send_to_webhook_returns url
              (build_payload questions (sort_by_order outs)))
    as (b & log & Hsend).
  exists outs, b, log. repeat split; try assumption.
  unfold process_all_questions, assemble_and_send, gather.
  rewrite Hg.
  replace (map (fun o => Ok (Some o)) outs)
    with (map (@Ok (option outcome)) (map Some outs))
    by (now rewrite map_map).
  rewrite handle_exceptions_returned. simpl.
  rewrite sort_keys_some. simpl.
  assert (Hs : Forall (fun o => question_id o = order o)
                 (sort_by_order outs))
    by (apply (Permutation_Forall (Permutation_sym (sort_by_order_perm outs)));
        exact Hid).
  rewrite (reassign_question_ids_fixed _ Hs).
  rewrite (verify_sequential_fixed _ Hs).
  now rewrite Hsend.
Qed.


(** *** The pool: slots *)

Lemma length_list_set {A : Type} (i : nat) (x : A) (l : list A) :
  List.length (list_set i x l) = List.length l.
Proof.
  revert i. induction l as [|y l IH]; intros [|i]; simpl; auto.
Qed.

Lemma nth_error_list_set_eq {A : Type} (i : nat) (x y : A) (l : list A) :
  nth_error l i = Some y -> nth_error (list_set i x l) i = Some x.
Proof.
  revert i. induction l as [|z l IH]; intros [|i]; simpl;
    try discriminate; auto.
Qed.

Lemma nth_error_list_set_neq {A : Type} (i j : nat) (x : A) (l : list A) :
  i <> j -> nth_error (list_set i x l) j = nth_error l j.
Proof.
  revert i j. induction l as [|z l IH]; intros [|i] [|j] H; simpl;
    try reflexivity; try congruence.
  apply IH. congruence.
Qed.

Lemma count_list_set {A : Type} (f : A -> bool) (i : nat) (s s' : A)
    (l : list A) :
  nth_error l i = Some s ->
  (List.length (filter f (list_set i s' l)) + Nat.b2n (f s)
   = List.length (filter f l) + Nat.b2n (f s'))%nat.
Proof.
  revert i. induction l as [|y l IH]; intros [|i]; simpl;
    try discriminate.
  - intro H. injection H as ->.
    destruct (f s), (f s'); simpl; lia.
  - intro H. specialize (IH _ H).
    destruct (f y); simpl; lia.
Qed.

(** What one turn of the event loop does: the resumed task moves on, and
    the free slots change by the slot it takes or gives back. *)
Lemma step_inv (questions : list question) (p p' : pool) (i : nat) :
  step questions p i = Some p' ->
  exists s q s',
    nth_error (tasks p) i = Some s
    /\ nth_error questions i = Some q
    /\ advance q i s = Some s'
    /\ tasks p' = list_set i s' (tasks p)
    /\ (permits p' + Nat.b2n (negb (holds_slot s))
        = permits p + Nat.b2n (is_done s'))%nat
    /\ (Nat.b2n (holds_slot s') + Nat.b2n (is_done s') = 1)%nat.
Proof.
  unfold step.
  destruct (nth_error (tasks p) i) as [s|] eqn:Hs; [|discriminate].
  destruct (nth_error questions i) as [q|] eqn:Hq; [|discriminate].
  destruct (advance q i s) as [s'|] eqn:Ha; [|discriminate].
  intro H. exists s, q, s'.
  assert (Hs' : (Nat.b2n (holds_slot s') + Nat.b2n (is_done s') = 1)%nat).
  { destruct s; simpl in Ha; try discriminate; injection Ha as <-.
    - unfold MAX_RETRIES. reflexivity.
    - destruct (grade_attempt q i attempt); [reflexivity|].
      destruct (retry_left attempt); reflexivity.
    - destruct rest; reflexivity. }
  destruct s; simpl in H.
  - destruct (permits p) as [|free]; [discriminate|].
    injection H as <-. simpl.
    repeat split; auto. destruct s'; simpl; lia.
  - injection H as <-. simpl. repeat split; auto.
    destruct s'; simpl; lia.
  - injection H as <-. simpl. repeat split; auto.
    destruct s'; simpl; lia.
  - discriminate.
Qed.

Lemma in_flight_start (questions : list question) :
  in_flight (start questions) = 0%nat.
Proof.
  unfold in_flight, start. simpl.
  induction questions as [|q qs IH]; simpl; auto.
Qed.

(** A slot is either free or held by a task in flight. *)
Lemma step_slots (questions : list question) (p p' : pool) (i : nat) :
  step questions p i = Some p' ->
  (in_flight p' + permits p' = in_flight p + permits p)%nat.
Proof.
  intro H.
  destruct (step_inv _ _ _ _ H)
    as (s & q & s' & Hs & _ & Ha & Ht & Hp & Hs').
  unfold in_flight. rewrite Ht.
  pose proof (count_list_set holds_slot i s s' (tasks p) Hs) as Hc.
  destruct (holds_slot s), (holds_slot s'), (is_done s');
    simpl in *; lia.
Qed.

Lemma run_slots (questions : list question) (schedule : list nat)
    (p p' : pool) :
  run questions schedule p = Some p' ->
  (in_flight p' + permits p' = in_flight p + permits p)%nat.
Proof.
  revert p. induction schedule as [|i rest IH]; intros p; simpl.
  - intro H. now injection H as <-.
  - destruct (step questions p i) as [p1|] eqn:Hstep; [|discriminate].
    intro H. rewrite (IH _ H). exact (step_slots _ _ _ _ Hstep).
Qed.

(** *** The pool: results *)

Lemma destined_loop_head (q : question) (task : nat) (attempts : list nat) :
  destined q task (loop_head attempts) = fst (grade_loop q task attempts).
Proof. destruct attempts; reflexivity. Qed.

(** A turn does not change what the task will return. *)
Lemma advance_destined (q : question) (task : nat) (s s' : task_state) :
  advance q task s = Some s' -> destined q task s' = destined q task s.
Proof.
  destruct s; simpl; intro H; try discriminate; injection H as <-.
  - reflexivity.
  - destruct (grade_attempt q task attempt); [reflexivity|].
    destruct (retry_left attempt); [|reflexivity].
    simpl. now destruct (grade_loop q task rest).
  - apply destined_loop_head.
Qed.

Lemma on_course_start (questions : list question) :
  on_course questions (start questions).
Proof.
  split; [apply length_map|].
  intros i s q Hs _. simpl in Hs.
  rewrite nth_error_map in Hs.
  destruct (nth_error questions i); [|discriminate].
  now injection Hs as <-.
Qed.

Lemma on_course_step (questions : list question) (p p' : pool) (i : nat) :
  on_course questions p -> step questions p i = Some p' ->
  on_course questions p'.
Proof.
  intros [Hlen Hd] H.
  destruct (step_inv _ _ _ _ H)
    as (s & q & s' & Hs & Hq & Ha & Ht & _).
  split; rewrite Ht; [now rewrite length_list_set|].
  intros j sj qj Hsj Hqj.
  destruct (Nat.eq_dec i j) as [<-|Hne].
  - rewrite (nth_error_list_set_eq _ _ _ _ Hs) in Hsj.
    injection Hsj as <-. rewrite Hq in Hqj. injection Hqj as <-.
    rewrite (advance_destined _ _ _ _ Ha). now apply Hd.
  - rewrite nth_error_list_set_neq in Hsj by exact Hne. now apply Hd.
Qed.

Lemma on_course_run (questions : list question) (schedule : list nat)
    (p p' : pool) :
  on_course questions p -> run questions schedule p = Some p' ->
  on_course questions p'.
Proof.
  revert p. induction schedule as [|i rest IH]; intros p Hp; simpl.
  - intro H. now injection H as <-.
  - destruct (step questions p i) as [p1|] eqn:Hstep; [|discriminate].
    apply IH. exact (on_course_step _ _ _ _ Hp Hstep).
Qed.

Lemma finished_results (task : nat) (questions : list question)
    (ts : list task_state) :
  List.length ts = List.length questions ->
  forallb is_done ts = true ->
  (forall i s q,
      nth_error ts i = Some s -> nth_error questions i = Some q ->
      destined q (task + i) s = fst (grade_single_question q (task + i))) ->
  flat_map (fun s => match s with Done r => [r] | _ => [] end) ts
  = gather_from task questions.
Proof.
  revert task questions.
  induction ts as [|s ts IH]; intros task [|q qs] Hlen Hdone Hd;
    simpl in *; try discriminate; [reflexivity|].
  apply andb_prop in Hdone. destruct Hdone as [Hs Hdone].
  destruct s; try discriminate. simpl. f_equal.
  - specialize (Hd 0%nat (Done r) q eq_refl eq_refl).
    now rewrite Nat.add_0_r in Hd.
  - apply IH; [lia | exact Hdone|].
    intros i s q' Hi Hq'. rewrite Nat.add_succ_comm.
    now apply (Hd (S i)).
Qed.

(** *** The pool: every run can be brought to its end *)

Lemma sum_list_set {A : Type} (f : A -> nat) (i : nat) (s s' : A)
    (l : list A) :
  nth_error l i = Some s ->
  (list_sum (map f (list_set i s' l)) + f s
   = list_sum (map f l) + f s')%nat.
Proof.
  revert i. induction l as [|y l IH]; intros [|i]; simpl;
    try discriminate.
  - intro H. injection H as ->. lia.
  - intro H. specialize (IH _ H). lia.
Qed.

Lemma advance_turns (q : question) (task : nat) (s s' : task_state) :
  advance q task s = Some s' -> (turns_left s' < turns_left s)%nat.
Proof.
  destruct s; simpl; intro H; try discriminate; injection H as <-.
  - unfold MAX_RETRIES. simpl. lia.
  - destruct (grade_attempt q task attempt); simpl; [lia|].
    destruct (retry_left attempt); simpl; lia.
  - destruct rest; simpl; lia.
Qed.

Lemma step_turns (questions : list question) (p p' : pool) (i : nat) :
  step questions p i = Some p' ->
  (pool_turns_left p' < pool_turns_left p)%nat.
Proof.
  intro H.
  destruct (step_inv _ _ _ _ H) as (s & q & s' & Hs & _ & Ha & Ht & _).
  unfold pool_turns_left. rewrite Ht.
  pose proof (sum_list_set turns_left i s s' (tasks p) Hs).
  pose proof (advance_turns _ _ _ _ Ha). lia.
Qed.

Lemma filter_witness {A : Type} (f : A -> bool) (l : list A) :
  (0 < List.length (filter f l))%nat ->
  exists i x, nth_error l i = Some x /\ f x = true.
Proof.
  intro H. destruct (filter f l) as [|x t] eqn:Hf; [simpl in H; lia|].
  assert (Hin : In x (filter f l)) by (rewrite Hf; now left).
  apply filter_In in Hin. destruct Hin as [Hin Hx].
  apply In_nth_error in Hin. destruct Hin as [i Hi]. eauto.
Qed.

Lemma forallb_witness {A : Type} (f : A -> bool) (l : list A) :
  forallb f l = false -> exists i x, nth_error l i = Some x /\ f x = false.
Proof.
  induction l as [|y l IH]; simpl; [discriminate|].
  destruct (f y) eqn:Hy; simpl.
  - intro H. destruct (IH H) as (i & x & Hi & Hx). exists (S i), x. auto.
  - intros _. exists 0%nat, y. auto.
Qed.

Lemma filter_none {A : Type} (f : A -> bool) (l : list A) (i : nat)
    (x : A) :
  List.length (filter f l) = 0%nat -> nth_error l i = Some x ->
  f x = false.
Proof.
  intros H Hi. destruct (f x) eqn:Hx; [|reflexivity].
  assert (Hin : In x (filter f l))
    by (apply filter_In; split; [now apply nth_error_In in Hi | exact Hx]).
  destruct (filter f l); [destruct Hin | discriminate].
Qed.

(** No deadlock: while a task is not done, some task can be resumed. *)
Lemma pool_progress (questions : list question) (p : pool) :
  List.length (tasks p) = List.length questions ->
  (in_flight p + permits p = MAX_PARALLEL_TASKS)%nat ->
  finished p = false ->
  exists i p', step questions p i = Some p'.
Proof.
  intros Hlen Hslots Hfin.
  assert (Hq : forall i s, nth_error (tasks p) i = Some s ->
                           exists q, nth_error questions i = Some q).
  { intros i s Hi.
    assert (Hlt : (i < List.length questions)%nat)
      by (rewrite <- Hlen; apply nth_error_Some; congruence).
    destruct (nth_error questions i) eqn:E; [eauto|].
    apply nth_error_None in E. lia. }
  destruct (Nat.eq_dec (in_flight p) 0) as [Hz|Hnz].
  - destruct (forallb_witness _ _ Hfin) as (i & s & Hi & Hs).
    pose proof (filter_none _ _ _ _ Hz Hi) as Hh.
    destruct (Hq _ _ Hi) as [q Hqi].
    exists i. unfold step. rewrite Hi, Hqi.
    destruct s; simpl in *; try discriminate.
    destruct (permits p) as [|free] eqn:Hp;
      [unfold MAX_PARALLEL_TASKS in Hslots; lia|].
    eauto.
  - destruct (filter_witness holds_slot (tasks p)) as (i & s & Hi & Hs);
      [unfold in_flight in Hnz; lia|].
    destruct (Hq _ _ Hi) as [q Hqi].
    exists i. unfold step. rewrite Hi, Hqi.
    destruct s; simpl in *; try discriminate; eauto.
Qed.

Lemma pool_can_finish (questions : list question) (p : pool) :
  List.length (tasks p) = List.length questions ->
  (in_flight p + permits p = MAX_PARALLEL_TASKS)%nat ->
  exists schedule p',
    run questions schedule p = Some p' /\ finished p' = true.
Proof.
  remember (pool_turns_left p) as n eqn:Hn.
  revert p Hn. induction n as [n IH] using lt_wf_ind.
  intros p Hn Hlen Hslots.
  destruct (finished p) eqn:Hfin.
  - exists [], p. auto.
  - destruct (pool_progress _ _ Hlen Hslots Hfin) as (i & p1 & Hstep).
    destruct (IH (pool_turns_left p1)) with (p := p1)
      as (schedule & p' & Hrun & Hdone).
    + subst n. exact (step_turns _ _ _ _ Hstep).
    + reflexivity.
    + destruct (step_inv _ _ _ _ Hstep) as (_ & _ & s' & _ & _ & _ & Ht & _).
      rewrite Ht, length_list_set. exact Hlen.
    + rewrite (step_slots _ _ _ _ Hstep). exact Hslots.
    + exists (i :: schedule), p'. simpl. rewrite Hstep. auto.
Qed.


(** From every state that a batch can reach, the event loop can bring
    every task to its end. *)
Lemma reachable_pool_can_finish (questions : list question)
    (schedule : list nat) (p : pool) :
  run questions schedule (start questions) = Some p ->
  exists schedule' p',
    run questions schedule' p = Some p' /\ finished p' = true.
Proof.
  intro Hrun. apply pool_can_finish.
  - exact (proj1 (on_course_run _ _ _ _ (on_course_start questions) Hrun)).
  - rewrite (run_slots _ _ _ _ Hrun), in_flight_start. reflexivity.
Qed.

(** *** The batch: one outcome per question *)

(** C1.  For every batch, [process_all_questions] returns a payload whose
    results are as many as the questions: they are the outcomes of the
    tasks, one per question, rearranged.  A question whose attempts all
    fail is among them, with status error and its own order. *)
Theorem process_returns_one_outcome_per_question
    (questions : list question) (url : pystr) :
  exists p log rs outs,
    process_all_questions questions url = (Ok p, log)
    /\ results_in p = Some rs
    /\ List.length rs = List.length questions
    /\ gather questions = map (fun o => Ok (Some o)) outs
    /\ Permutation rs outs
    /\ forall i q,
         nth_error questions i = Some q -> all_attempts_fail q i ->
         exists o, nth_error outs i = Some o
                   /\ In o rs
                   /\ status o = StatusError
                   /\ order o = question_order q.
Proof.
  destruct (process_all_questions_returns questions url)
    as (outs & b & log & Hg & Hid & Hord & Hsend & Hp).
  exists (dict_set (py "webhook_sent") (VBool b)
            (build_payload questions (sort_by_order outs))),
    log, (sort_by_order outs), outs.
  split; [exact Hp|]. split; [reflexivity|].
  split.
  { rewrite (Permutation_length (sort_by_order_perm outs)).
    rewrite <- (length_map order), Hord. apply length_map. }
  split; [exact Hg|]. split; [apply sort_by_order_perm|].
  intros i q Hq Hfail.
  pose proof (gather_from_nth 0 questions i) as Hn.
  fold (gather questions) in Hn. rewrite Hq, Hg, nth_error_map in Hn.
  simpl in Hn.
  destruct (grade_single_question_exhausted q i Hfail) as (e & _ & He).
  rewrite He in Hn. simpl in Hn.
  destruct (nth_error outs i) as [o|] eqn:Ho; [|discriminate].
  simpl in Hn. injection Hn as ->.
  exists (retries_failed q e). repeat split.
  apply (Permutation_in _ (Permutation_sym (sort_by_order_perm outs))).
  now apply nth_error_In in Ho.
Qed.

(** C2.  Whatever the tasks returned or raised, every outcome of the
    payload that the assembly returns has [question_id] equal to
    [order]; and whatever the response of the agent holds, a parse that
    returns gives the caller's [order] as [question_id] and as [order]. *)
Theorem question_id_equals_order
    (questions : list question) (url : pystr)
    (results : list (result (option outcome)))
    (p : payload) (log : list delivery_event) (rs : list outcome) :
  assemble_and_send questions url results = (Ok p, log) ->
  results_in p = Some rs ->
  Forall (fun r => question_id r = order r) rs
  /\ forall response order r,
       parse_agent_response response order = Ok r ->
       p_question_id r = order /\ p_order r = order.
Proof.
  intros Hrun Hrs. split; [|apply parse_agent_response_ids].
  revert Hrun Hrs. unfold assemble_and_send.
  destruct (handle_exceptions questions 0 results) as [processed|e];
    simpl; [|discriminate].
  destruct (sort_keys processed) as [keyed|e]; simpl; [|discriminate].
  destruct (send_to_webhook url _) as [[b|e] log']; simpl;
    [|discriminate].
  intro H. injection H as <- <-.
  intro H. injection H as <-.
  apply verify_sequential_holds, reassign_question_ids_holds.
Qed.


(** C3.  However the event loop interleaves the tasks, once they are all
    done the results that the assembly emits are sorted by ascending
    [order] and carry the orders of the questions; when those orders are
    exactly 0..N-1, the emitted orders are 0, 1, ..., N-1 in this
    sequence.  The payload is the one [process_all_questions] returns. *)
Theorem emitted_results_sorted_by_order
    (questions : list question) (url : pystr) (schedule : list nat)
    (p : pool) :
  run questions schedule (start questions) = Some p ->
  finished p = true ->
  exists final log rs,
    assemble_and_send questions url (results_of p) = (Ok final, log)
    /\ process_all_questions questions url = (Ok final, log)
    /\ results_in final = Some rs
    /\ Sorted Z.le (map order rs)
    /\ Permutation (map order rs) (map question_order questions)
    /\ ((forall z, In z (map question_order questions)
                   <-> 0 <= z < Z.of_nat (List.length questions)) ->
        map order rs = map Z.of_nat (range (List.length questions))).
Proof.
  intros Hrun Hfin.
  assert (Hres : results_of p = gather questions).
  { destruct (on_course_run _ _ _ _ (on_course_start questions) Hrun)
      as [Hlen Hd].
    unfold results_of, gather.
    now apply finished_results. }
  destruct (process_all_questions_returns questions url)
    as (outs & b & log & Hg & Hid & Hord & Hsend & Hp).
  exists (dict_set (py "webhook_sent") (VBool b)
            (build_payload questions (sort_by_order outs))),
    log, (sort_by_order outs).
  assert (Hperm : Permutation (map order (sort_by_order outs))
                    (map question_order questions))
    by (rewrite <- Hord; apply Permutation_map, sort_by_order_perm).
  split; [rewrite Hres; exact Hp|].
  split; [exact Hp|]. split; [reflexivity|].
  split; [apply sort_by_order_sorted|]. split; [exact Hperm|].
  intro Hset.
  apply sorted_perm_unique;
    [apply sort_by_order_sorted | apply sorted_range |].
  rewrite Hperm. apply Permutation_sym, NoDup_Permutation_bis.
  - apply NoDup_map_NoDup_ForallPairs; [|apply seq_NoDup].
    intros x y _ _ Heq. lia.
  - rewrite !length_map. unfold range. now rewrite length_seq.
  - intros z Hz. apply Hset. apply in_map_iff in Hz.
    destruct Hz as (k & <- & Hk). unfold range in Hk.
    apply in_seq in Hk. lia.
Qed.

(** C9.  In every state that a batch of any size can reach, at most
    [MAX_PARALLEL_TASKS] grading tasks are in flight: each slot of the
    semaphore is free or held by one of them.  A task in flight that ends,
    whatever it returns or raises, gives its slot back in that very
    turn. *)
Theorem at_most_max_parallel_tasks_in_flight
    (questions : list question) (schedule : list nat) (p : pool) :
  run questions schedule (start questions) = Some p ->
  (in_flight p <= MAX_PARALLEL_TASKS)%nat
  /\ (in_flight p + permits p = MAX_PARALLEL_TASKS)%nat
  /\ forall i p' s r,
       step questions p i = Some p' ->
       nth_error (tasks p) i = Some s -> holds_slot s = true ->
       nth_error (tasks p') i = Some (Done r) ->
       permits p' = S (permits p) /\ S (in_flight p') = in_flight p.
Proof.
  intro Hrun. pose proof (run_slots _ _ _ _ Hrun) as Hinv.
  rewrite in_flight_start in Hinv. simpl in Hinv.
  split; [lia|]. split; [exact Hinv|].
  intros i p' s r Hstep Hs Hheld Hdone.
  pose proof (step_slots _ _ _ _ Hstep) as Hslots.
  destruct (step_inv _ _ _ _ Hstep)
    as (s0 & q & s' & Hs0 & _ & _ & Ht & Hp & _).
  rewrite Hs in Hs0. injection Hs0 as <-.
  rewrite Ht, (nth_error_list_set_eq _ _ _ _ Hs) in Hdone.
  injection Hdone as ->. rewrite Hheld in Hp. simpl in Hp. lia.
Qed.

(** C10.  A question without an ["order"] key is graded like any other,
    with 0 for its order: its outcome has [order] 0 and [question_id] 0
    and is among the results.  A question of the same batch whose order is
    a genuine 0 gets an outcome with the same two identifiers, so the two
    cannot be told apart by them. *)
Theorem missing_order_is_graded_as_order_zero
    (questions : list question) (url : pystr) (i : nat) (q : question) :
  nth_error questions i = Some q -> q_order q = None ->
  exists o p log rs outs,
    gather questions = map (fun o => Ok (Some o)) outs
    /\ nth_error outs i = Some o
    /\ order o = 0 /\ question_id o = 0
    /\ process_all_questions questions url = (Ok p, log)
    /\ results_in p = Some rs
    /\ Permutation rs outs
    /\ forall j q',
         nth_error questions j = Some q' -> q_order q' = Some 0 ->
         exists o', nth_error outs j = Some o'
                    /\ order o' = order o
                    /\ question_id o' = question_id o.
Proof.
  intros Hq Hnone.
  destruct (process_all_questions_returns questions url)
    as (outs & b & log & Hg & Hid & Hord & Hsend & Hp).
  assert (Hat : forall j qj, nth_error questions j = Some qj ->
                  exists oj, nth_error outs j = Some oj
                             /\ order oj = question_order qj
                             /\ question_id oj = question_order qj).
  { intros j qj Hj.
    assert (Hn : nth_error (map order outs) j = Some (question_order qj))
      by (rewrite Hord, nth_error_map, Hj; reflexivity).
    rewrite nth_error_map in Hn.
    destruct (nth_error outs j) as [oj|] eqn:Hoj; [|discriminate].
    injection Hn as Hn. exists oj. repeat split; [exact Hn|].
    rewrite Forall_forall in Hid. rewrite (Hid oj); [exact Hn|].
    now apply nth_error_In in Hoj. }
  destruct (Hat _ _ Hq) as (o & Ho & Hoo & Hoq).
  unfold question_order in Hoo, Hoq. rewrite Hnone in Hoo, Hoq.
  exists o, (dict_set (py "webhook_sent") (VBool b)
               (build_payload questions (sort_by_order outs))),
    log, (sort_by_order outs), outs.
  repeat split; try assumption; [apply sort_by_order_perm|].
  intros j q' Hj Hzero.
  destruct (Hat _ _ Hj) as (o' & Ho' & Hoo' & Hoq').
  unfold question_order in Hoo', Hoq'. rewrite Hzero in Hoo', Hoq'.
  exists o'. repeat split; congruence.
Qed.


(** *** Malformed responses and exhausted retries *)

(** C4, as the code has it.  A response in which no span is found, or
    whose span [json.loads] refuses with [JSONDecodeError], does not make
    the parse fail: it returns the default dict (0 points of 3, the fixed
    parse-failure feedback).  The attempt then ends the loop at once with
    that dict and status success; no further attempt is made. *)
Theorem malformed_response_is_graded_with_defaults
    (q : question) (task attempt : nat) (rest : list nat)
    (response : pystr) :
  run_agent task attempt q = Responded response ->
  malformed response ->
  parse_agent_response response (question_order q)
  = Ok {| p_question_id := question_order q;
          p_order := question_order q;
          p_points_earned := PInt 0;
          p_points_possible := PInt 3;
          p_feedback := PStr FEEDBACK_PARSE_FAILED;
          p_correct_answer := PStr [] |}
  /\ grade_loop q task (attempt :: rest)
     = (Ok (Some {| question_id := question_order q;
                    order := question_order q;
                    points_earned := PInt 0;
                    points_possible := PInt 3;
                    feedback := PStr FEEDBACK_PARSE_FAILED;
                    correct_answer := PStr [];
                    status := StatusSuccess;
                    error_message := None |}),
        [AgentCall attempt]).
Proof.
  intros Hrun Hbad. split.
  - exact (parse_agent_response_malformed _ _ Hbad).
  - simpl. now rewrite (grade_attempt_malformed _ _ _ _ Hrun Hbad).
Qed.

(** C5.  When every attempt for a question fails, the task does not
    raise: after [MAX_RETRIES] calls of the agent, with a pause of 2 and
    then 4 seconds between them, it returns a dict with status error, 0
    points earned, the question's own [points_possible] (3 when it has
    none), the fixed feedback, and the message of the last exception. *)
Theorem exhausted_retries_give_error_outcome (q : question) (task : nat) :
  all_attempts_fail q task ->
  exists e,
    grade_attempt q task (MAX_RETRIES - 1) = Raise e
    /\ grade_single_question q task
       = (Ok (Some {| question_id := question_order q;
                      order := question_order q;
                      points_earned := PInt 0;
                      points_possible :=
                        match q_points_possible q with
                        | Some v => v
                        | None => PInt 3
                        end;
                      feedback := PStr FEEDBACK_RETRIES_FAILED;
                      correct_answer := PStr [];
                      status := StatusError;
                      error_message := Some (exn_str e) |}),
          [AgentCall 0; GradeSleep (RETRY_DELAY * 1); AgentCall 1;
           GradeSleep (RETRY_DELAY * 2); AgentCall 2]).
Proof.
  intro Hall.
  destruct (grade_single_question_exhausted q task Hall) as (e & He & Hg).
  exists e. split; [exact He | exact Hg].
Qed.

(** *** Delivery *)

(** C6.  For every batch the delivery returns a boolean and never raises.
    It POSTs the same body to the callback one, two or three times, with a
    pause of [RETRY_DELAY] seconds between two POSTs and none after the
    last.  The boolean is true exactly when one of the [MAX_RETRIES]
    attempts is answered with a 2xx status; the first such attempt is the
    last POST, and without one all [MAX_RETRIES] POSTs are made.  The
    boolean is what the returned payload has under ["webhook_sent"]. *)
Theorem delivery_retries_and_reports
    (questions : list question) (url : pystr) :
  exists p body b log,
    process_all_questions questions url = (Ok p, log)
    /\ send_to_webhook url body = (Ok b, log)
    /\ webhook_sent_in p = Some b
    /\ (let P := Post url body in
        let S := DeliverySleep RETRY_DELAY in
        log = [P] \/ log = [P; S; P] \/ log = [P; S; P; S; P])
    /\ (List.length (posts log) <= MAX_RETRIES)%nat
    /\ (b = true <->
        exists attempt,
          (attempt < MAX_RETRIES)%nat /\ answered_2xx attempt url body)
    /\ (forall k,
           (k < MAX_RETRIES)%nat -> answered_2xx k url body ->
           (forall j, (j < k)%nat -> ~ answered_2xx j url body) ->
           List.length (posts log) = S k)
    /\ (b = false -> List.length (posts log) = MAX_RETRIES).
Proof.
  destruct (process_all_questions_returns questions url)
    as (outs & b & log & Hg & Hid & Hord & Hsend & Hp).
  set (body := build_payload questions (sort_by_order outs)) in *.
  exists (dict_set (py "webhook_sent") (VBool b) body), body, b, log.
  split; [exact Hp|]. split; [exact Hsend|]. split; [reflexivity|].
  assert (Hfail : forall a e, post_attempt a url body = Raise e ->
                              ~ answered_2xx a url body).
  { intros a e He H2. apply post_attempt_ok in H2. congruence. }
  destruct (send_to_webhook_cases url body)
    as [(H0 & H)|[([e0 H0] & H1 & H)|[([e0 H0] & [e1 H1] & H2 & H)
                  |([e0 H0] & [e1 H1] & [e2 H2] & H)]]];
    rewrite H in Hsend; injection Hsend as <- <-;
    (split; [auto|]); (split; [unfold MAX_RETRIES; simpl; lia|]).
  - split; [split; [intros _|reflexivity]|].
    { exists 0%nat. split; [unfold MAX_RETRIES; lia|].
      now apply post_attempt_ok. }
    split; [|discriminate].
    intros k Hk Hans Hfirst. destruct k as [|k]; [reflexivity|].
    exfalso. apply (Hfirst 0%nat); [lia|]. now apply post_attempt_ok.
  - split; [split; [intros _|reflexivity]|].
    { exists 1%nat. split; [unfold MAX_RETRIES; lia|].
      now apply post_attempt_ok. }
    split; [|discriminate].
    intros k Hk Hans Hfirst. destruct k as [|[|k]]; [|reflexivity|].
    + exfalso. exact (Hfail _ _ H0 Hans).
    + exfalso. apply (Hfirst 1%nat); [lia|]. now apply post_attempt_ok.
  - split; [split; [intros _|reflexivity]|].
    { exists 2%nat. split; [unfold MAX_RETRIES; lia|].
      now apply post_attempt_ok. }
    split; [|discriminate].
    intros k Hk Hans Hfirst. destruct k as [|[|[|k]]]; [| |reflexivity|].
    + exfalso. exact (Hfail _ _ H0 Hans).
    + exfalso. exact (Hfail _ _ H1 Hans).
    + unfold MAX_RETRIES in Hk. lia.
  - split; [split; [discriminate|]|].
    { intros (a & Ha & Hans). exfalso.
      destruct a as [|[|[|a]]]; [| | |unfold MAX_RETRIES in Ha; lia].
      - exact (Hfail _ _ H0 Hans).
      - exact (Hfail _ _ H1 Hans).
      - exact (Hfail _ _ H2 Hans). }
    split; [|reflexivity].
    intros k Hk Hans _. exfalso.
    destruct k as [|[|[|k]]]; [| | |unfold MAX_RETRIES in Hk; lia].
    + exact (Hfail _ _ H0 Hans).
    + exact (Hfail _ _ H1 Hans).
    + exact (Hfail _ _ H2 Hans).
Qed.

(** C7, as the code has it.  The body of every POST to the callback is the
    dict with the two keys ["results"] and ["metadata"], and at least one
    POST is made.  ["webhook_sent"] is set after the delivery loop: it is
    the third key of the payload that [process_all_questions] returns,
    with a boolean, and is in no POSTed body. *)
Theorem posted_body_and_returned_payload
    (questions : list question) (url : pystr) :
  exists p log rs m b,
    let body := [(py "results", VResults rs); (py "metadata", VMetadata m)] in
    process_all_questions questions url = (Ok p, log)
    /\ p = [(py "results", VResults rs); (py "metadata", VMetadata m);
            (py "webhook_sent", VBool b)]
    /\ (exists rest, log = Post url body :: rest)
    /\ (forall url' body',
           In (Post url' body') log ->
           url' = url /\ body' = body
           /\ dict_keys body' = [py "results"; py "metadata"]
           /\ dict_get (py "webhook_sent") body' = None).
Proof.
  destruct (process_all_questions_returns questions url)
    as (outs & b & log & Hg & Hid & Hord & Hsend & Hp).
  exists (dict_set (py "webhook_sent") (VBool b)
            (build_payload questions (sort_by_order outs))),
    log, (sort_by_order outs),
    {| total_questions := List.length questions;
       successful := count_status StatusSuccess (sort_by_order outs);
       failed := count_status StatusError (sort_by_order outs);
       processing_time_seconds := elapsed_rounded;
       timestamp := utc_now |}, b.
  cbv zeta. split; [exact Hp|]. split; [reflexivity|].
  fold (build_payload questions (sort_by_order outs)).
  set (body := build_payload questions (sort_by_order outs)) in *.
  destruct (send_to_webhook_cases url body)
    as [(_ & H)|[(_ & _ & H)|[(_ & _ & _ & H)|(_ & _ & _ & H)]]];
    rewrite H in Hsend; injection Hsend as <- <-;
    (split; [eexists; reflexivity|]);
    intros url' body' Hin; simpl in Hin;
    repeat (destruct Hin as [Hin|Hin];
            [try discriminate; injection Hin as <- <-;
             repeat split; reflexivity|]);
    destruct Hin.
Qed.

(** *** Responses that wrap the object in prose *)

(** C8, as the code has it.  When the prose before a braced text has no
    opening brace and the prose after it has no closing brace, parsing the
    wrapped text gives what parsing the bare braced text gives: the same
    fields, or the same exception. *)
Theorem prose_without_braces_does_not_change_the_parse
    (pre body post : pystr) (order : Z) :
  ~ In LBRACE pre -> ~ In RBRACE post ->
  parse_agent_response (pre ++ (LBRACE :: body ++ [RBRACE]) ++ post) order
  = parse_agent_response (LBRACE :: body ++ [RBRACE]) order.
Proof.
  intros Hpre Hpost. apply parse_agent_response_span.
  rewrite (json_span_embedded pre body post Hpre Hpost).
  symmetry.
  pose proof (json_span_embedded [] body [] (fun H => H) (fun H => H)) as H.
  simpl in H. rewrite app_nil_r in H. exact H.
Qed.


(** *** Retries: where they stop *)

(** X1.  The first attempt that returns ends the task.  When the attempts
    before attempt [k] raise and attempt [k] returns [r], the task returns
    [r] (status success, both identifiers the question's order) after the
    attempts 0..k, having paused 2 seconds after the first failure and 4
    after the second. *)
Theorem first_returning_attempt_ends_the_retries
    (q : question) (task k : nat) (r : outcome) :
  (k < MAX_RETRIES)%nat ->
  (forall j, (j < k)%nat -> exists e, grade_attempt q task j = Raise e) ->
  grade_attempt q task k = Ok r ->
  grade_single_question q task = (Ok (Some r), retry_log k)
  /\ status r = StatusSuccess
  /\ question_id r = question_order q
  /\ order r = question_order q.
Proof.
  intros Hk Hbefore Hr.
  destruct (grade_attempt_success _ _ _ _ Hr) as (Hid & Hord & Hst & _).
  split; [|auto].
  unfold MAX_RETRIES in Hk. unfold grade_single_question. simpl.
  destruct k as [|[|[|k]]]; [| | |lia].
  - now rewrite Hr.
  - destruct (Hbefore 0%nat) as [e0 H0]; [lia|]. now rewrite H0, Hr.
  - destruct (Hbefore 0%nat) as [e0 H0]; [lia|].
    destruct (Hbefore 1%nat) as [e1 H1]; [lia|].
    now rewrite H0, H1, Hr.
Qed.

(** *** Decoded objects: missing keys, values that are no numbers *)

Lemma parse_agent_response_decoded (response span : pystr) (order : Z)
    (v : pyval) :
  json_span response = Some span -> json_loads span = Ok v ->
  parse_agent_response response order
  = match
      (points_earned_raw <- py_get v (py "points_earned") (PInt 0) ;;
       points_earned <- py_float points_earned_raw ;;
       points_possible_raw <- py_get v (py "points_possible") (PInt 3) ;;
       points_possible <- py_float points_possible_raw ;;
       feedback <- py_get v (py "feedback") (PStr []) ;;
       correct_answer <- py_get v (py "correct_answer") (PStr []) ;;
       Ok {| p_question_id := order;
             p_order := order;
             p_points_earned := PFloat points_earned;
             p_points_possible := PFloat points_possible;
             p_feedback := feedback;
             p_correct_answer := correct_answer |})
    with
    | Ok r => Ok r
    | Raise e => if is_JSONDecodeError e then Ok (default_parsed order)
                 else Raise e
    end.
Proof.
  unfold json_span, parse_agent_response. cbv zeta.
  destruct (negb (find LBRACE (strip response) =? -1)
            && (rfind RBRACE (strip response) + 1
                >? find LBRACE (strip response)));
    [|discriminate].
  intros H Hloads. injection H as H. rewrite H, Hloads. simpl.
  destruct (py_get v (py "points_earned") (PInt 0)) as [a|e]; simpl;
    [|reflexivity].
  destruct (py_float a) as [fa|e]; simpl; [|reflexivity].
  destruct (py_get v (py "points_possible") (PInt 3)) as [b|e]; simpl;
    [|reflexivity].
  destruct (py_float b) as [fb|e]; simpl; [|reflexivity].
  destruct (py_get v (py "feedback") (PStr [])) as [c|e]; simpl;
    [|reflexivity].
  destruct (py_get v (py "correct_answer") (PStr [])) as [d|e]; simpl;
    reflexivity.
Qed.

(** X2.  An object without the four keys.  When the span decodes to an object
    that has none of [points_earned], [points_possible], [feedback] and
    [correct_answer], the parse gives [float(0)] points of [float(3)], an
    empty feedback and an empty correct answer, with the caller's order as
    both identifiers. *)
Theorem object_without_keys_gets_the_defaults
    (response span : pystr) (order : Z) (d : list (pystr * pyval))
    (zero three : pyfloat) :
  json_span response = Some span ->
  json_loads span = Ok (PDict d) ->
  dict_get (py "points_earned") d = None ->
  dict_get (py "points_possible") d = None ->
  dict_get (py "feedback") d = None ->
  dict_get (py "correct_answer") d = None ->
  py_float (PInt 0) = Ok zero ->
  py_float (PInt 3) = Ok three ->
  parse_agent_response response order
  = Ok {| p_question_id := order;
          p_order := order;
          p_points_earned := PFloat zero;
          p_points_possible := PFloat three;
          p_feedback := PStr [];
          p_correct_answer := PStr [] |}.
Proof.
  intros Hspan Hloads He Hp Hf Hc H0 H3.
  rewrite (parse_agent_response_decoded _ _ _ _ Hspan Hloads).
  unfold py_get. rewrite He, Hp, Hf, Hc. simpl.
  rewrite H0. simpl. rewrite H3. reflexivity.
Qed.

(** X3.  Points that are no number.  When the span decodes to an object whose
    [points_earned] is refused by [float] with an exception other than
    [JSONDecodeError], the parse raises that exception instead of giving the
    defaults, and the attempt has failed: the loop pauses and goes on to
    the next attempt when one is left, and otherwise returns the error dict
    with the exception's message. *)
Theorem unconvertible_points_fail_the_attempt
    (q : question) (task attempt : nat) (rest : list nat)
    (response span : pystr) (d : list (pystr * pyval)) (v : pyval)
    (e : exn) :
  run_agent task attempt q = Responded response ->
  json_span response = Some span ->
  json_loads span = Ok (PDict d) ->
  dict_get (py "points_earned") d = Some v ->
  py_float v = Raise e ->
  is_JSONDecodeError e = false ->
  parse_agent_response response (question_order q) = Raise e
  /\ grade_attempt q task attempt = Raise e
  /\ grade_loop q task (attempt :: rest)
     = if retry_left attempt
       then (fst (grade_loop q task rest),
             AgentCall attempt
               :: GradeSleep (RETRY_DELAY * (Z.of_nat attempt + 1))
               :: snd (grade_loop q task rest))
       else (Ok (Some {| question_id := question_order q;
                         order := question_order q;
                         points_earned := PInt 0;
                         points_possible :=
                           match q_points_possible q with
                           | Some p => p
                           | None => PInt 3
                           end;
                         feedback := PStr FEEDBACK_RETRIES_FAILED;
                         correct_answer := PStr [];
                         status := StatusError;
                         error_message := Some (exn_str e) |}),
             [AgentCall attempt]).
Proof.
  intros Hrun Hspan Hloads Hv Hfloat Hcls.
  assert (Hparse : parse_agent_response response (question_order q)
                   = Raise e).
  { rewrite (parse_agent_response_decoded _ _ _ _ Hspan Hloads).
    unfold py_get at 1. rewrite Hv. simpl. rewrite Hfloat. simpl.
    now rewrite Hcls. }
  assert (Hattempt : grade_attempt q task attempt = Raise e).
  { unfold grade_attempt. rewrite Hrun. simpl. now rewrite Hparse. }
  split; [exact Hparse|]. split; [exact Hattempt|].
  simpl. rewrite Hattempt.
  destruct (retry_left attempt); [|reflexivity].
  now destruct (grade_loop q task rest).
Qed.


(** *** The assembly: exceptions among the gathered results *)

Lemma handle_exceptions_no_none (questions : list question) (i : nat)
    (results : list (result (option outcome))) :
  (List.length results + i <= List.length questions)%nat ->
  Forall (fun r => r <> Ok None) results ->
  exists outs,
    handle_exceptions questions i results = Ok (map Some outs)
    /\ List.length outs = List.length results
    /\ forall k,
         nth_error outs k
         = match nth_error results k with
           | Some (Ok (Some o)) => Some o
           | Some (Raise e) =>
               option_map (fun q => unhandled (i + k) q e)
                 (nth_error questions (i + k))
           | _ => None
           end.
Proof.
  worldless.
  revert i. induction results as [|r rest IH]; intros i Hlen Hall.
  - exists []. simpl. split; [reflexivity|]. split; [reflexivity|].
    intros [|k]; reflexivity.
  - inversion Hall as [|? ? Hr Hrest]; subst. simpl in Hlen.
    destruct (IH (S i)) as (outs & Hh & Hl & Hn); [lia | exact Hrest |].
    destruct (nth_error questions i) as [q|] eqn:Hq;
      [|apply nth_error_None in Hq; lia].
    destruct r as [[o|]|e]; [| congruence |].
    + exists (o :: outs). simpl. rewrite Hh. simpl.
      split; [reflexivity|]. split; [now rewrite Hl|].
      intros [|k]; simpl; [reflexivity|].
      rewrite Hn. now rewrite Nat.add_succ_comm.
    + exists (unhandled i q e :: outs). simpl.
      unfold question_at. rewrite Hq. simpl. rewrite Hh. simpl.
      split; [reflexivity|]. split; [now rewrite Hl|].
      intros [|k]; simpl.
      * now rewrite Nat.add_0_r, Hq.
      * rewrite Hn. now rewrite Nat.add_succ_comm.
Qed.

(** X4.  A task that raised.  When the gathered results hold one entry per
    question, none of them [None], the assembly returns a payload with as
    many results as questions.  An entry that is an exception [e], at index
    [i], is there as an error outcome with 0 points of 3, the feedback for
    unhandled errors and the message of [e]; its order is the question's
    order, or [i] when the question has none, and its [question_id], first
    set to [i], is that order too. *)
Theorem raised_task_becomes_an_error_outcome
    (questions : list question) (url : pystr)
    (results : list (result (option outcome))) (i : nat) (q : question)
    (e : exn) :
  List.length results = List.length questions ->
  Forall (fun r => r <> Ok None) results ->
  nth_error results i = Some (Raise e) ->
  nth_error questions i = Some q ->
  exists p log rs,
    assemble_and_send questions url results = (Ok p, log)
    /\ results_in p = Some rs
    /\ List.length rs = List.length questions
    /\ let own_order := match q_order q with
                        | Some o => o
                        | None => Z.of_nat i
                        end in
       In {| question_id := own_order;
             order := own_order;
             points_earned := PInt 0;
             points_possible := PInt 3;
             feedback := PStr FEEDBACK_UNHANDLED;
             correct_answer := PStr [];
             status := StatusError;
             error_message := Some (exn_str e) |} rs.
Proof.
  intros Hlen Hall Hi Hq.
  destruct (handle_exceptions_no_none questions 0 results)
    as (outs & Hh & Hl & Hn); [lia | exact Hall |].
  unfold assemble_and_send. rewrite Hh. simpl. rewrite sort_keys_some. simpl.
  set (rs := verify_sequential (reassign_question_ids (sort_by_order outs))).
  destruct (send_to_webhook_returns url (build_payload questions rs))
    as (b & log & Hsend).
  rewrite Hsend. simpl.
  exists (dict_set (py "webhook_sent") (VBool b) (build_payload questions rs)),
    log, rs.
  split; [reflexivity|]. split; [reflexivity|].
  assert (Hrs : rs = reassign_question_ids (sort_by_order outs)).
  { unfold rs. apply verify_sequential_fixed, reassign_question_ids_holds. }
  split.
  { rewrite Hrs. unfold reassign_question_ids. rewrite length_map.
    rewrite (Permutation_length (sort_by_order_perm outs)). lia. }
  cbv zeta. rewrite Hrs. unfold reassign_question_ids.
  apply in_map_iff. exists (unhandled i q e). split; [reflexivity|].
  apply (Permutation_in _ (Permutation_sym (sort_by_order_perm outs))).
  apply (nth_error_In outs i). rewrite Hn, Hi. simpl. now rewrite Hq.
Qed.

(** *** The metadata *)

Lemma count_status_perm (s : grade_status) (l l' : list outcome) :
  Permutation l l' -> count_status s l = count_status s l'.
Proof.
  worldless.
  unfold count_status. induction 1; simpl.
  - reflexivity.
  - destruct (match status x, s with
              | StatusSuccess, StatusSuccess => true
              | StatusError, StatusError => true
              | _, _ => false
              end); simpl; congruence.
  - destruct (match status x, s with
              | StatusSuccess, StatusSuccess => true
              | StatusError, StatusError => true
              | _, _ => false
              end);
      destruct (match status y, s with
                | StatusSuccess, StatusSuccess => true
                | StatusError, StatusError => true
                | _, _ => false
                end); reflexivity.
  - congruence.
Qed.

Lemma count_status_total (l : list outcome) :
  (count_status StatusSuccess l + count_status StatusError l
   = List.length l)%nat.
Proof.
  worldless.
  unfold count_status. induction l as [|r l IH]; simpl; [reflexivity|].
  destruct (status r); simpl; lia.
Qed.

(** The task ends in status error exactly when all its attempts raise. *)
Lemma grade_single_question_status (q : question) (task : nat) (o : outcome) :
  fst (grade_single_question q task) = Ok (Some o) ->
  status o = if exhausted q task then StatusError else StatusSuccess.
Proof.
  unfold grade_single_question, exhausted. simpl.
  destruct (grade_attempt q task 0) as [r0|e0] eqn:H0; simpl.
  { intro H. injection H as <-.
    now destruct (grade_attempt_success _ _ _ _ H0) as (_ & _ & -> & _). }
  destruct (grade_attempt q task 1) as [r1|e1] eqn:H1; simpl.
  { intro H. injection H as <-.
    now destruct (grade_attempt_success _ _ _ _ H1) as (_ & _ & -> & _). }
  destruct (grade_attempt q task 2) as [r2|e2] eqn:H2; simpl.
  { intro H. injection H as <-.
    now destruct (grade_attempt_success _ _ _ _ H2) as (_ & _ & -> & _). }
  intro H. injection H as <-. reflexivity.
Qed.

Lemma count_error_gathered (task : nat) (questions : list question)
    (outs : list outcome) :
  gather_from task questions = map (fun o => Ok (Some o)) outs ->
  count_status StatusError outs = count_exhausted task questions.
Proof.
  revert task outs. induction questions as [|q qs IH]; intros task outs.
  - destruct outs; [reflexivity | discriminate].
  - destruct outs as [|o outs]; [discriminate|]. simpl.
    intro H. injection H as Ho Hrest.
    specialize (IH _ _ Hrest).
    unfold count_status in *. simpl.
    rewrite (grade_single_question_status _ _ _ Ho).
    destruct (exhausted q task); simpl; now rewrite IH.
Qed.

(** X5.  The counts of the metadata.  For every batch, [total_questions] is
    the number of questions and of results, [successful] and [failed] add
    up to it, and [failed] is the number of questions whose attempts all
    raised. *)
Theorem metadata_counts_add_up (questions : list question) (url : pystr) :
  exists p log rs m,
    process_all_questions questions url = (Ok p, log)
    /\ results_in p = Some rs
    /\ dict_get (py "metadata") p = Some (VMetadata m)
    /\ total_questions m = List.length questions
    /\ total_questions m = List.length rs
    /\ (successful m + failed m = total_questions m)%nat
    /\ failed m = count_exhausted 0 questions.
Proof.
  destruct (process_all_questions_returns questions url)
    as (outs & b & log & Hg & Hid & Hord & Hsend & Hp).
  assert (Hlen : List.length (sort_by_order outs) = List.length questions).
  { rewrite (Permutation_length (sort_by_order_perm outs)).
    rewrite <- (length_map order), Hord. apply length_map. }
  eexists. exists log, (sort_by_order outs). eexists.
  split; [exact Hp|]. split; [reflexivity|]. split; [reflexivity|].
  simpl. split; [reflexivity|]. split; [now rewrite Hlen|].
  split; [rewrite count_status_total; exact Hlen|].
  rewrite (count_status_perm _ _ _ (sort_by_order_perm outs)).
  now apply count_error_gathered.
Qed.

(** *** Equal orders *)

Lemma filter_insert_by_order (k : Z) (x : outcome) (l : list outcome) :
  filter (fun r => order r =? k) (insert_by_order x l)
  = filter (fun r => order r =? k) (x :: l).
Proof.
  worldless.
  induction l as [|y l IH]; simpl; [reflexivity|].
  destruct (Z.leb_spec (order x) (order y)) as [Hle|Hgt]; simpl;
    [reflexivity|].
  rewrite IH. simpl.
  destruct (Z.eqb_spec (order x) k) as [Hx|Hx];
    destruct (Z.eqb_spec (order y) k) as [Hy|Hy]; try reflexivity.
  lia.
Qed.

Lemma filter_sort_by_order (k : Z) (l : list outcome) :
  filter (fun r => order r =? k) (sort_by_order l)
  = filter (fun r => order r =? k) l.
Proof.
  worldless.
  induction l as [|x l IH]; simpl; [reflexivity|].
  rewrite filter_insert_by_order. simpl. now rewrite IH.
Qed.

(** X6.  Questions that share an order.  For every batch and every order
    [k], the results with order [k] are the outcomes of the tasks with
    order [k], in the sequence in which the questions were submitted. *)
Theorem equal_orders_keep_submission_sequence
    (questions : list question) (url : pystr) (k : Z) :
  exists p log rs outs,
    process_all_questions questions url = (Ok p, log)
    /\ results_in p = Some rs
    /\ gather questions = map (fun o => Ok (Some o)) outs
    /\ filter (fun r => order r =? k) rs
       = filter (fun r => order r =? k) outs.
Proof.
  destruct (process_all_questions_returns questions url)
    as (outs & b & log & Hg & Hid & Hord & Hsend & Hp).
  eexists. exists log, (sort_by_order outs), outs.
  split; [exact Hp|]. split; [reflexivity|]. split; [exact Hg|].
  apply filter_sort_by_order.
Qed.


(** *** The endpoints *)

(** X7.  [POST /grade/sync].  An empty list is refused with status 400 before
    anything is graded or sent.  For any other list the endpoint returns
    the payload of [process_all_questions]: one result per question, sorted
    by order, with the delivery flag; every POST of the delivery went to
    [FINAL_WEBHOOK_URL] and carried these results. *)
Theorem sync_endpoint_refuses_empty_and_returns_the_payload
    (questions : list question) :
  match questions with
  | [] =>
      grade_questions_sync questions
      = (RaisesHTTPException 400 (py "No questions provided"), [])
  | _ :: _ =>
      exists p log rs b,
        grade_questions_sync questions = (Returns p, log)
        /\ results_in p = Some rs
        /\ List.length rs = List.length questions
        /\ Sorted Z.le (map order rs)
        /\ webhook_sent_in p = Some b
        /\ (exists body rest, log = Post FINAL_WEBHOOK_URL body :: rest)
        /\ forall url body,
             In (Post url body) log ->
             url = FINAL_WEBHOOK_URL /\ results_in body = Some rs
  end.
Proof.
  destruct questions as [|q0 qs]; [reflexivity|].
  set (questions := q0 :: qs).
  destruct (process_all_questions_returns questions FINAL_WEBHOOK_URL)
    as (outs & b & log & Hg & Hid & Hord & Hsend & Hp).
  eexists. exists log, (sort_by_order outs), b.
  split; [unfold grade_questions_sync; fold questions; rewrite Hp;
          reflexivity|].
  split; [reflexivity|].
  split.
  { rewrite (Permutation_length (sort_by_order_perm outs)).
    rewrite <- (length_map order), Hord. apply length_map. }
  split; [apply sort_by_order_sorted|]. split; [reflexivity|].
  set (body := build_payload questions (sort_by_order outs)) in *.
  destruct (send_to_webhook_cases FINAL_WEBHOOK_URL body)
    as [(_ & H)|[(_ & _ & H)|[(_ & _ & _ & H)|(_ & _ & _ & H)]]];
    rewrite H in Hsend; injection Hsend as <- <-;
    (split; [eexists; eexists; reflexivity|]);
    intros url body' Hin; simpl in Hin;
    repeat (destruct Hin as [Hin|Hin];
            [try discriminate; injection Hin as <- <-;
             split; reflexivity|]);
    destruct Hin.
Qed.

(** X8.  [POST /grade].  An empty list is refused with status 400 and nothing
    is scheduled.  For any other list the endpoint answers 202 with the
    number of questions received and schedules one background task; when
    that task runs, it returns a payload and its first POST goes to
    [FINAL_WEBHOOK_URL] with as many results as were acknowledged. *)
Theorem async_endpoint_acknowledges_what_it_will_deliver
    (questions : list question) :
  match questions with
  | [] =>
      grade_questions questions
      = (RaisesHTTPException 400 (py "No questions provided"), [])
  | _ :: _ =>
      exists ack t p log body rest rs,
        grade_questions questions = (Returns ack, [t])
        /\ ack_status_code ack = 202
        /\ ack_questions_received ack = List.length questions
        /\ run_background t = (Ok p, log)
        /\ log = Post FINAL_WEBHOOK_URL body :: rest
        /\ results_in body = Some rs
        /\ List.length rs = ack_questions_received ack
  end.
Proof.
  destruct questions as [|q0 qs]; [reflexivity|].
  set (questions := q0 :: qs).
  destruct (process_all_questions_returns questions FINAL_WEBHOOK_URL)
    as (outs & b & log & Hg & Hid & Hord & Hsend & Hp).
  assert (Hlen : List.length (sort_by_order outs) = List.length questions).
  { rewrite (Permutation_length (sort_by_order_perm outs)).
    rewrite <- (length_map order), Hord. apply length_map. }
  set (body := build_payload questions (sort_by_order outs)) in *.
  assert (Hfirst : exists rest, log = Post FINAL_WEBHOOK_URL body :: rest).
  { destruct (send_to_webhook_cases FINAL_WEBHOOK_URL body)
      as [(_ & H)|[(_ & _ & H)|[(_ & _ & _ & H)|(_ & _ & _ & H)]]];
      rewrite H in Hsend; injection Hsend as <- <-; eexists; reflexivity. }
  destruct Hfirst as [rest Hrest].
  eexists. eexists. eexists. exists log, body, rest, (sort_by_order outs).
  split; [reflexivity|]. split; [reflexivity|]. split; [reflexivity|].
  split; [exact Hp|]. split; [exact Hrest|]. split; [reflexivity|].
  exact Hlen.
Qed.

(** *** The pool: no run gets stuck *)

Lemma run_app (questions : list question) (s1 s2 : list nat) (p p1 : pool) :
  run questions s1 p = Some p1 ->
  run questions (s1 ++ s2) p = run questions s2 p1.
Proof.
  revert p. induction s1 as [|i s1 IH]; intros p; simpl.
  - intro H. now injection H as <-.
  - destruct (step questions p i) as [p'|]; [apply IH | discriminate].
Qed.

Lemma finished_in_flight (p : pool) : finished p = true -> in_flight p = 0%nat.
Proof.
  worldless.
  unfold finished, in_flight. induction (tasks p) as [|s ts IH]; simpl;
    [reflexivity|].
  intro H. apply andb_prop in H. destruct H as [Hs Hts].
  destruct s; try discriminate. simpl. now apply IH.
Qed.

(** X9.  No deadlock behind the semaphore.  Whatever turns the event loop has
    taken so far, it can go on until every task is done; the results are
    then what the tasks return one by one, in the order of the questions,
    and all [MAX_PARALLEL_TASKS] slots are free again. *)
Theorem every_batch_runs_to_completion
    (questions : list question) (schedule : list nat) (p : pool) :
  run questions schedule (start questions) = Some p ->
  exists more p',
    run questions (schedule ++ more) (start questions) = Some p'
    /\ finished p' = true
    /\ results_of p' = gather questions
    /\ permits p' = MAX_PARALLEL_TASKS.
Proof.
  intro Hrun.
  destruct (on_course_run _ _ _ _ (on_course_start questions) Hrun)
    as [Hlen Hd].
  pose proof (run_slots _ _ _ _ Hrun) as Hslots.
  rewrite in_flight_start in Hslots. simpl in Hslots.
  destruct (pool_can_finish questions p Hlen Hslots)
    as (more & p' & Hmore & Hfin).
  exists more, p'.
  assert (Hall : run questions (schedule ++ more) (start questions)
                 = Some p')
    by (rewrite (run_app _ _ _ _ _ Hrun); exact Hmore).
  split; [exact Hall|]. split; [exact Hfin|].
  destruct (on_course_run _ _ _ _ (on_course_start questions) Hall)
    as [Hlen' Hd'].
  split.
  - unfold results_of, gather. now apply finished_results.
  - pose proof (run_slots _ _ _ _ Hall) as Hs.
    rewrite in_flight_start, (finished_in_flight _ Hfin) in Hs.
    simpl in Hs. exact Hs.
Qed.


End Pipeline.

(** ** The properties on concrete runs *)

(** A text does not hold a character: every position is compared. *)
Ltac absent :=
  let H := fresh in
  intro H; simpl in H;
  repeat (destruct H as [H|H]; [discriminate H|]); exact H.

Lemma question_id_equals_order_witness :
  exists p log rs,
    assemble_and_send Demo.callback_ok Demo.elapsed Demo.now
      [Demo.question2; Demo.question0] Demo.url
      (gather Json.loads Builtins.float (Demo.agent_says Demo.graded_object)
         [Demo.question2; Demo.question0])
    = (Ok p, log)
    /\ results_in p = Some rs
    /\ map order rs = [0; 2]
    /\ Forall (fun r => question_id r = order r) rs.
Proof.
  eexists. eexists. eexists.
  split; [vm_compute; reflexivity|].
  split; [reflexivity|]. split; [reflexivity|].
  refine (proj1 (question_id_equals_order Json.loads Builtins.float
                   Demo.callback_ok Demo.elapsed Demo.now
                   [Demo.question2; Demo.question0] Demo.url
                   (gather Json.loads Builtins.float
                      (Demo.agent_says Demo.graded_object)
                      [Demo.question2; Demo.question0])
                   _ _ _ _ _)).
  - vm_compute. reflexivity.
  - reflexivity.
Defined.

(** Three tasks take their slots in the order 2, 1, 0 and end in the order
    2, 0, 1; the results come out in the order 0, 1, 2. *)
Lemma emitted_results_sorted_by_order_witness :
  exists p final log rs,
    run Json.loads Builtins.float (Demo.agent_says Demo.graded_object)
      [Demo.question2; Demo.question0; Demo.question1]
      [2; 1; 0; 2; 0; 1]%nat
      (start [Demo.question2; Demo.question0; Demo.question1])
    = Some p
    /\ finished p = true
    /\ process_all_questions Json.loads Builtins.float
         (Demo.agent_says Demo.graded_object) Demo.callback_ok
         Demo.elapsed Demo.now
         [Demo.question2; Demo.question0; Demo.question1] Demo.url
       = (Ok final, log)
    /\ results_in final = Some rs
    /\ Sorted Z.le (map order rs)
    /\ map order rs = [0; 1; 2].
Proof.
  eassert (Hrun : run Json.loads Builtins.float
                    (Demo.agent_says Demo.graded_object)
                    [Demo.question2; Demo.question0; Demo.question1]
                    [2; 1; 0; 2; 0; 1]%nat
                    (start [Demo.question2; Demo.question0; Demo.question1])
                  = Some _)
    by (vm_compute; reflexivity).
  destruct (emitted_results_sorted_by_order Json.loads Builtins.float
              (Demo.agent_says Demo.graded_object) Demo.callback_ok
              Demo.elapsed Demo.now _ Demo.url _ _ Hrun eq_refl)
    as (final & log & rs & _ & Hp & Hrs & Hsorted & _ & Hrange).
  eexists. exists final, log, rs.
  split; [exact Hrun|]. split; [reflexivity|].
  split; [exact Hp|]. split; [exact Hrs|]. split; [exact Hsorted|].
  apply Hrange. intro z. unfold question_order. cbn. lia.
Defined.

(** Six questions: four tasks take the four slots, a fifth has to wait, and
    the first task to end hands its slot back. *)
Lemma at_most_max_parallel_tasks_in_flight_witness :
  let questions := [Demo.question0; Demo.question1; Demo.question2;
                    Demo.unordered; Demo.question1; Demo.question2] in
  let agent := Demo.agent_says Demo.graded_object in
  exists p p' r,
    run Json.loads Builtins.float agent questions [0; 1; 2; 3]%nat
      (start questions) = Some p
    /\ in_flight p = MAX_PARALLEL_TASKS
    /\ (in_flight p <= MAX_PARALLEL_TASKS)%nat
    /\ step Json.loads Builtins.float agent questions p 4 = None
    /\ step Json.loads Builtins.float agent questions p 0 = Some p'
    /\ nth_error (tasks p') 0 = Some (Done r)
    /\ permits p' = S (permits p)
    /\ S (in_flight p') = in_flight p.
Proof.
  intros questions agent.
  eassert (Hrun : run Json.loads Builtins.float agent questions
                    [0; 1; 2; 3]%nat (start questions) = Some _)
    by (vm_compute; reflexivity).
  destruct (at_most_max_parallel_tasks_in_flight Json.loads Builtins.float
              agent questions _ _ Hrun) as (Hle & _ & Hrelease).
  match type of Hrun with
  | _ = Some ?p =>
      eassert (Hstep : step Json.loads Builtins.float agent questions p 0
                       = Some _)
        by (vm_compute; reflexivity)
  end.
  match type of Hstep with
  | _ = Some ?p' =>
      eassert (Hdone : nth_error (tasks p') 0 = Some (Done _))
        by (vm_compute; reflexivity)
  end.
  destruct (Hrelease _ _ _ _ Hstep eq_refl eq_refl Hdone) as [Hp Hf].
  eexists. eexists. eexists.
  split; [exact Hrun|]. split; [reflexivity|]. split; [exact Hle|].
  split; [reflexivity|]. split; [exact Hstep|]. split; [exact Hdone|].
  split; [exact Hp | exact Hf].
Defined.

(** A question without an order next to a question of order 0. *)
Lemma missing_order_is_graded_as_order_zero_witness :
  let questions := [Demo.question0; Demo.unordered] in
  let agent := Demo.agent_says Demo.graded_object in
  nth_error questions 1 = Some Demo.unordered
  /\ q_order Demo.unordered = None
  /\ exists o o' p log rs outs,
       gather Json.loads Builtins.float agent questions
       = map (fun o => Ok (Some o)) outs
       /\ nth_error outs 1 = Some o
       /\ nth_error outs 0 = Some o'
       /\ order o = 0 /\ question_id o = 0
       /\ order o' = 0 /\ question_id o' = 0
       /\ process_all_questions Json.loads Builtins.float agent
            Demo.callback_ok Demo.elapsed Demo.now questions Demo.url
          = (Ok p, log)
       /\ results_in p = Some rs
       /\ Permutation rs outs.
Proof.
  intros questions agent.
  split; [reflexivity|]. split; [reflexivity|].
  destruct (missing_order_is_graded_as_order_zero Json.loads Builtins.float
              agent Demo.callback_ok Demo.elapsed Demo.now questions
              Demo.url 1 Demo.unordered eq_refl eq_refl)
    as (o & p & log & rs & outs & Hg & Ho & Hord & Hid & Hp & Hrs & Hperm
        & Hsame).
  destruct (Hsame 0%nat Demo.question0 eq_refl eq_refl)
    as (o' & Ho' & Hord' & Hid').
  exists o, o', p, log, rs, outs.
  repeat split; try assumption; congruence.
Defined.

(** An answer without any object: graded at the first attempt, with the
    default points and status success. *)
Lemma malformed_response_is_graded_with_defaults_witness :
  let agent := Demo.agent_says Demo.refusal in
  agent 0%nat 0%nat Demo.question1 = Responded Demo.refusal
  /\ malformed Json.loads Demo.refusal
  /\ parse_agent_response Json.loads Builtins.float Demo.refusal 1
     = Ok {| p_question_id := 1;
             p_order := 1;
             p_points_earned := PInt 0;
             p_points_possible := PInt 3;
             p_feedback := PStr FEEDBACK_PARSE_FAILED;
             p_correct_answer := PStr [] |}
  /\ grade_loop Json.loads Builtins.float agent Demo.question1 0
       [0; 1; 2]%nat
     = (Ok (Some {| question_id := 1;
                    order := 1;
                    points_earned := PInt 0;
                    points_possible := PInt 3;
                    feedback := PStr FEEDBACK_PARSE_FAILED;
                    correct_answer := PStr [];
                    status := StatusSuccess;
                    error_message := None |}),
        [AgentCall 0]).
Proof.
  intro agent.
  assert (Hbad : malformed Json.loads Demo.refusal) by (vm_compute; exact I).
  split; [reflexivity|]. split; [exact Hbad|].
  exact (malformed_response_is_graded_with_defaults Json.loads Builtins.float
           agent Demo.question1 0 0 [1; 2]%nat Demo.refusal eq_refl Hbad).
Defined.

(** An agent that times out every time, for a question worth 5 points. *)
Lemma exhausted_retries_give_error_outcome_witness :
  all_attempts_fail Json.loads Builtins.float Demo.agent_times_out
    Demo.question0 0
  /\ grade_single_question Json.loads Builtins.float Demo.agent_times_out
       Demo.question0 0
     = (Ok (Some {| question_id := 0;
                    order := 0;
                    points_earned := PInt 0;
                    points_possible := PInt 5;
                    feedback := PStr FEEDBACK_RETRIES_FAILED;
                    correct_answer := PStr [];
                    status := StatusError;
                    error_message := Some (py "Timeout after 120s") |}),
        [AgentCall 0; GradeSleep 2; AgentCall 1; GradeSleep 4; AgentCall 2]).
Proof.
  assert (Hall : all_attempts_fail Json.loads Builtins.float
                   Demo.agent_times_out Demo.question0 0)
    by (intros attempt _; eexists; reflexivity).
  split; [exact Hall|].
  destruct (exhausted_retries_give_error_outcome Json.loads Builtins.float
              Demo.agent_times_out Demo.question0 0 Hall) as (e & He & Hg).
  rewrite Hg. vm_compute in He. injection He as <-. reflexivity.
Defined.

(** Prose without braces around the object. *)
Lemma prose_without_braces_does_not_change_the_parse_witness :
  ~ In LBRACE Demo.prose_before
  /\ ~ In RBRACE Demo.prose_after
  /\ parse_agent_response Json.loads Builtins.float Demo.graded_in_prose 0
     = parse_agent_response Json.loads Builtins.float Demo.graded_object 0.
Proof.
  assert (Hpre : ~ In LBRACE Demo.prose_before) by absent.
  assert (Hpost : ~ In RBRACE Demo.prose_after) by absent.
  split; [exact Hpre|]. split; [exact Hpost|].
  exact (prose_without_braces_does_not_change_the_parse Json.loads
           Builtins.float Demo.prose_before Demo.graded_fields
           Demo.prose_after 0 Hpre Hpost).
Defined.

(** *** Where the code departs from the description *)

(** C4 as stated does not hold.  An answer without any object and an answer
    whose span is not JSON are both malformed, yet the parse returns the
    default dict for each instead of failing, and the task that gets such an
    answer returns after its first call of the agent, with status success. *)
Lemma malformed_response_is_not_retried :
  malformed Json.loads Demo.refusal
  /\ malformed Json.loads Demo.not_json
  /\ parse_agent_response Json.loads Builtins.float Demo.refusal 1
     = Ok (default_parsed 1)
  /\ parse_agent_response Json.loads Builtins.float Demo.not_json 1
     = Ok (default_parsed 1)
  /\ grade_single_question Json.loads Builtins.float
       (Demo.agent_says Demo.not_json) Demo.question1 0
     = (Ok (Some {| question_id := 1;
                    order := 1;
                    points_earned := PInt 0;
                    points_possible := PInt 3;
                    feedback := PStr FEEDBACK_PARSE_FAILED;
                    correct_answer := PStr [];
                    status := StatusSuccess;
                    error_message := None |}),
        [AgentCall 0]).
Proof.
  split; [vm_compute; exact I|].
  split; [vm_compute; eexists; split; reflexivity|].
  repeat split; vm_compute; reflexivity.
Qed.

(** C7 as stated does not hold.  The body that is POSTed has the keys
    ["results"] and ["metadata"] only; ["webhook_sent"] is in the payload
    that is returned after the delivery. *)
Lemma posted_body_lacks_webhook_sent :
  exists p body,
    process_all_questions Json.loads Builtins.float
      (Demo.agent_says Demo.graded_object) Demo.callback_ok
      Demo.elapsed Demo.now [Demo.question0] Demo.url
    = (Ok p, [Post Demo.url body])
    /\ dict_keys body = [py "results"; py "metadata"]
    /\ dict_get (py "webhook_sent") body = None
    /\ dict_get (py "webhook_sent") p = Some (VBool true).
Proof.
  eexists. eexists.
  split; [vm_compute; reflexivity|].
  repeat split; reflexivity.
Qed.

(** C8 as stated does not hold.  The object alone is parsed into its
    fields; followed by prose that holds a closing brace, the span runs to
    that brace, is refused by [json.loads], and the parse gives the
    defaults. *)
Lemma braces_in_prose_change_the_parse :
  parse_agent_response Json.loads Builtins.float Demo.graded_object 0
  = Ok {| p_question_id := 0;
          p_order := 0;
          p_points_earned := PFloat (Float64.of_Z 2);
          p_points_possible := PFloat (Float64.of_Z 3);
          p_feedback := PStr (py "ok");
          p_correct_answer := PStr (py "42") |}
  /\ parse_agent_response Json.loads Builtins.float
       Demo.graded_in_braced_prose 0
     = Ok {| p_question_id := 0;
             p_order := 0;
             p_points_earned := PInt 0;
             p_points_possible := PInt 3;
             p_feedback := PStr FEEDBACK_PARSE_FAILED;
             p_correct_answer := PStr [] |}
  /\ parse_agent_response Json.loads Builtins.float
       Demo.graded_in_braced_prose 0
     <> parse_agent_response Json.loads Builtins.float Demo.graded_object 0.
Proof.
  assert (H1 : parse_agent_response Json.loads Builtins.float
                 Demo.graded_object 0
               = Ok {| p_question_id := 0;
                       p_order := 0;
                       p_points_earned := PFloat (Float64.of_Z 2);
                       p_points_possible := PFloat (Float64.of_Z 3);
                       p_feedback := PStr (py "ok");
                       p_correct_answer := PStr (py "42") |})
    by (vm_compute; reflexivity).
  assert (H2 : parse_agent_response Json.loads Builtins.float
                 Demo.graded_in_braced_prose 0
               = Ok (default_parsed 0))
    by (vm_compute; reflexivity).
  split; [exact H1|]. split; [exact H2|].
  rewrite H1, H2. discriminate.
Qed.

(** *** The scenarios of the description *)

(** A callback that fails twice and then accepts: three POSTs, two pauses of
    [RETRY_DELAY] seconds, and the flag is true. *)
Example delivery_succeeds_at_third_attempt (body : payload) :
  send_to_webhook Demo.callback_flaky Demo.url body
  = (Ok true,
     [Post Demo.url body; DeliverySleep 2; Post Demo.url body;
      DeliverySleep 2; Post Demo.url body]).
Proof. reflexivity. Qed.

(** A callback that is down: [MAX_RETRIES] POSTs, and the flag is false. *)
Example delivery_gives_up_after_max_retries (body : payload) :
  send_to_webhook Demo.callback_down Demo.url body
  = (Ok false,
     [Post Demo.url body; DeliverySleep 2; Post Demo.url body;
      DeliverySleep 2; Post Demo.url body]).
Proof. reflexivity. Qed.

(** Three questions sent in the order 2, 1, 0; the agent answers for 0 and 2
    and fails every attempt for 1. *)
Example batch_with_one_failing_question :
  exists p rs m log,
    process_all_questions Json.loads Builtins.float Demo.agent_fails_task1
      Demo.callback_ok Demo.elapsed Demo.now
      [Demo.question2; Demo.question1; Demo.question0] Demo.url
    = (Ok p, log)
    /\ results_in p = Some rs
    /\ dict_get (py "metadata") p = Some (VMetadata m)
    /\ map order rs = [0; 1; 2]
    /\ map status rs = [StatusSuccess; StatusError; StatusSuccess]
    /\ total_questions m = 3%nat
    /\ successful m = 2%nat
    /\ failed m = 1%nat.
Proof.
  eexists. eexists. eexists. eexists.
  split; [vm_compute; reflexivity|].
  repeat split; reflexivity.
Qed.

(** ** Further properties: formatting, isolation, routing *)

Lemma pystr_eqb_eq (a b : pystr) : pystr_eqb a b = true <-> a = b.
Proof.
  revert b. induction a as [|x a IH]; intros [|y b]; simpl;
    try (split; [discriminate | discriminate]); [tauto|].
  rewrite andb_true_iff, IH. unfold char_eqb. rewrite N.eqb_eq.
  split; [intros [-> ->]; reflexivity | intro H; injection H; auto].
Qed.

Lemma starts_with_app (p a b : pystr) :
  (List.length p <= List.length a)%nat ->
  Lex.starts_with p (a ++ b) = Lex.starts_with p a.
Proof.
  revert a. induction p as [|x p IH]; intros [|y a]; simpl; intro H;
    try reflexivity; [lia|].
  rewrite IH by lia. reflexivity.
Qed.

Lemma starts_with_prefix (p b : pystr) : Lex.starts_with p (p ++ b) = true.
Proof.
  induction p as [|x p IH]; simpl; [reflexivity|].
  unfold char_eqb. now rewrite N.eqb_refl, IH.
Qed.

Lemma is_substring_unfold (needle s : pystr) :
  Ops.is_substring needle s
  = Lex.starts_with needle s
    || match s with
       | [] => false
       | _ :: t => Ops.is_substring needle t
       end.
Proof. destruct s; reflexivity. Qed.

Lemma is_substring_found (needle pre post : pystr) :
  Ops.is_substring needle (pre ++ needle ++ post) = true.
Proof.
  induction pre as [|c pre IH].
  - rewrite is_substring_unfold. simpl app. now rewrite starts_with_prefix.
  - rewrite is_substring_unfold. simpl. rewrite IH. apply orb_true_r.
Qed.

Lemma until_quote_found (txt post : pystr) :
  ~ In Ops.QUOTE txt ->
  Ops.until_quote (txt ++ Ops.QUOTE :: post) = Some txt.
Proof.
  induction txt as [|c txt IH]; simpl; intro H.
  - reflexivity.
  - unfold char_eqb. destruct (N.eqb_spec c Ops.QUOTE) as [->|_].
    + exfalso. apply H. now left.
    + rewrite IH by (intro; apply H; now right). reflexivity.
Qed.

Lemma search_alt_unfold (s : pystr) :
  Ops.search_alt s
  = match Ops.match_alt_here s with
    | Some group => Some group
    | None => match s with
              | [] => None
              | _ :: t => Ops.search_alt t
              end
    end.
Proof. destruct s; reflexivity. Qed.

Lemma match_alt_here_found (rest : pystr) :
  Ops.match_alt_here (Ops.ALT_OPEN ++ rest) = Ops.until_quote rest.
Proof.
  unfold Ops.match_alt_here. rewrite starts_with_prefix.
  now rewrite skipn_app, skipn_all, Nat.sub_diag.
Qed.

(** The leftmost match of the pattern is at the first [alt=] with a quote
    after it. *)
Lemma search_alt_first (pre txt post : pystr) :
  Ops.is_substring Ops.ALT_OPEN (pre ++ py "alt=") = false ->
  ~ In Ops.QUOTE txt ->
  Ops.search_alt (pre ++ Ops.ALT_OPEN ++ txt ++ Ops.QUOTE :: post)
  = Some txt.
Proof.
  intros Hpre Htxt. induction pre as [|c pre IH].
  - change ([] ++ Ops.ALT_OPEN ++ txt ++ Ops.QUOTE :: post)
      with (Ops.ALT_OPEN ++ txt ++ Ops.QUOTE :: post).
    rewrite search_alt_unfold, match_alt_here_found.
    now rewrite (until_quote_found _ _ Htxt).
  - rewrite is_substring_unfold in Hpre.
    apply orb_false_iff in Hpre. destruct Hpre as [Hhere Hpre].
    simpl in Hpre.
    assert (Hno : Ops.match_alt_here
                    ((c :: pre) ++ Ops.ALT_OPEN ++ txt ++ Ops.QUOTE :: post)
                  = None).
    { unfold Ops.match_alt_here.
      replace ((c :: pre) ++ Ops.ALT_OPEN ++ txt ++ Ops.QUOTE :: post)
        with (((c :: pre) ++ py "alt=")
                ++ Ops.QUOTE :: txt ++ Ops.QUOTE :: post)
        by (unfold Ops.ALT_OPEN; now rewrite <- !app_assoc).
      rewrite starts_with_app
        by (rewrite length_app; simpl; lia).
      now rewrite Hhere. }
    rewrite search_alt_unfold, Hno.
    change ((c :: pre) ++ Ops.ALT_OPEN ++ txt ++ Ops.QUOTE :: post)
      with (c :: (pre ++ Ops.ALT_OPEN ++ txt ++ Ops.QUOTE :: post)).
    now apply IH.
Qed.

(** X10.  Multiple-choice questions.  A question whose type is
    [multiple_choice] is formatted whatever its other items hold.  The
    student's answer is the value of [selected_answers] when that is truthy
    and the empty list when it is missing, null or empty; the choices are
    passed on, an empty list when there are none. *)
Theorem multiple_choice_question_is_always_formatted (q : question) :
  question_get q (py "question_type") (PStr (py "text"))
  = PStr (py "multiple_choice") ->
  exists formatted,
    formatted_question q = Ok formatted
    /\ dict_get (py "choices") formatted
       = Some (question_get q (py "choices") (PList []))
    /\ (Ops.truthy (question_get q (py "selected_answers") (PList []))
        = true ->
        dict_get (py "student_answer") formatted
        = Some (question_get q (py "selected_answers") (PList [])))
    /\ (Ops.truthy (question_get q (py "selected_answers") (PList []))
        = false ->
        dict_get (py "student_answer") formatted = Some (PList [])).
Proof.
  intro Htype. unfold formatted_question. rewrite Htype. simpl.
  destruct (dict_get (py "course") (q_items q)) as [course|];
    eexists; (split; [reflexivity|]); (split; [reflexivity|]);
    split; intros ->; reflexivity.
Qed.

(** X11.  Text answers without a picture.  A question that is not
    multiple-choice and whose answer is a text without [<img] or without
    [alt=] and a quote is formatted with that very text as the student's
    answer; this includes the empty text that stands for a missing
    answer. *)
Theorem plain_text_answer_is_passed_unchanged (q : question) (s : pystr) :
  Ops.eq_str (question_get q (py "question_type") (PStr (py "text")))
    (py "multiple_choice") = false ->
  question_get q (py "answer") (PStr []) = PStr s ->
  Ops.is_substring (py "<img") s = false
  \/ Ops.is_substring Ops.ALT_OPEN s = false ->
  exists formatted,
    formatted_question q = Ok formatted
    /\ dict_get (py "student_answer") formatted = Some (PStr s).
Proof.
  intros Htype Hanswer Hplain. unfold formatted_question.
  rewrite Htype, Hanswer. unfold Ops.contains.
  assert (Hanswered :
    (has_alt <- (if Ops.is_substring (py "<img") s
                 then Ok (Ops.is_substring Ops.ALT_OPEN s) else Ok false) ;;
     answer <- (if has_alt
                then alt_match <- Ops.re_search_alt (PStr s) ;;
                     Ok match alt_match with
                        | Some group => PStr group
                        | None => PStr s
                        end
                else Ok (PStr s)) ;;
     Ok answer) = Ok (PStr s)).
  { destruct Hplain as [H|H]; rewrite H; simpl; [reflexivity|].
    destruct (Ops.is_substring (py "<img") s); reflexivity. }
  simpl bind at 1. simpl in Hanswered |- *.
  destruct (Ops.is_substring (py "<img") s); simpl in *.
  - destruct (Ops.is_substring Ops.ALT_OPEN s); simpl in *.
    + destruct (Ops.search_alt s); simpl in *.
      * injection Hanswered as Hs. rewrite Hs.
        destruct (dict_get (py "course") (q_items q));
          eexists; split; reflexivity.
      * destruct (dict_get (py "course") (q_items q));
          eexists; split; reflexivity.
    + destruct (dict_get (py "course") (q_items q));
        eexists; split; reflexivity.
  - destruct (dict_get (py "course") (q_items q));
      eexists; split; reflexivity.
Qed.

(** X12.  Text answers with a picture.  When the answer of a question that is
    not multiple-choice holds [<img] somewhere, and its first [alt=] with a
    quote is followed by a text without quotes and a closing quote, the
    student's answer that is formatted is that text alone: whatever else
    the answer holds, before or after, is left out. *)
Theorem picture_answer_is_replaced_by_its_alt_text
    (q : question) (pre txt post : pystr) :
  Ops.eq_str (question_get q (py "question_type") (PStr (py "text")))
    (py "multiple_choice") = false ->
  question_get q (py "answer") (PStr [])
  = PStr (pre ++ Ops.ALT_OPEN ++ txt ++ Ops.QUOTE :: post) ->
  Ops.is_substring (py "<img")
    (pre ++ Ops.ALT_OPEN ++ txt ++ Ops.QUOTE :: post) = true ->
  Ops.is_substring Ops.ALT_OPEN (pre ++ py "alt=") = false ->
  ~ In Ops.QUOTE txt ->
  exists formatted,
    formatted_question q = Ok formatted
    /\ dict_get (py "student_answer") formatted = Some (PStr txt).
Proof.
  intros Htype Hanswer Himg Hfirst Htxt.
  pose proof (is_substring_found Ops.ALT_OPEN pre
                (txt ++ Ops.QUOTE :: post)) as Halt.
  pose proof (search_alt_first pre txt post Hfirst Htxt) as Hsearch.
  unfold formatted_question.
  rewrite Htype, Hanswer. unfold Ops.contains, Ops.re_search_alt.
  rewrite Himg. cbn [bind]. rewrite Halt. cbn [bind]. rewrite Hsearch.
  destruct (dict_get (py "course") (q_items q));
    eexists; split; reflexivity.
Qed.

(** X13.  Answers that are no text.  When the answer of a question that is
    not multiple-choice is null, a boolean or a number, the membership test
    of the formatting raises.  Behind the formatting, every attempt of the
    task then fails before the runner is reached: whatever the runner would
    say, the task returns the error dict with the message of that
    exception. *)
Theorem unformattable_question_never_reaches_the_runner
    (json_loads : pystr -> result pyval)
    (py_float : pyval -> result pyfloat)
    (json_dumps : pyval -> result pystr)
    (engine : nat -> nat -> pystr -> agent_reply)
    (q : question) (task : nat) (e : exn) :
  Ops.eq_str (question_get q (py "question_type") (PStr (py "text")))
    (py "multiple_choice") = false ->
  Ops.contains (py "<img") (question_get q (py "answer") (PStr []))
  = Raise e ->
  format_question_for_agent json_dumps q = Raise e
  /\ grade_single_question json_loads py_float
       (agent_behind_format json_dumps engine) q task
     = (Ok (Some {| question_id := question_order q;
                    order := question_order q;
                    points_earned := PInt 0;
                    points_possible :=
                      match q_points_possible q with
                      | Some v => v
                      | None => PInt 3
                      end;
                    feedback := PStr FEEDBACK_RETRIES_FAILED;
                    correct_answer := PStr [];
                    status := StatusError;
                    error_message := Some (exn_str e) |}),
        [AgentCall 0; GradeSleep 2; AgentCall 1; GradeSleep 4; AgentCall 2]).
Proof.
  intros Htype Hraise.
  assert (Hformat : format_question_for_agent json_dumps q = Raise e).
  { unfold format_question_for_agent, formatted_question.
    rewrite Htype, Hraise. reflexivity. }
  split; [exact Hformat|].
  assert (Hattempt : forall attempt,
            grade_attempt json_loads py_float
              (agent_behind_format json_dumps engine) q task attempt
            = Raise e).
  { intro attempt. unfold grade_attempt, agent_behind_format.
    now rewrite Hformat. }
  unfold grade_single_question. simpl. rewrite !Hattempt. reflexivity.
Qed.

(** *** Isolation of the tasks *)

Lemma grade_loop_own_replies
    (json_loads : pystr -> result pyval)
    (py_float : pyval -> result pyfloat)
    (agent1 agent2 : nat -> nat -> question -> agent_reply)
    (q : question) (task : nat) (attempts : list nat) :
  (forall attempt, agent1 task attempt q = agent2 task attempt q) ->
  grade_loop json_loads py_float agent1 q task attempts
  = grade_loop json_loads py_float agent2 q task attempts.
Proof.
  intro Hsame. induction attempts as [|a rest IH]; simpl; [reflexivity|].
  unfold grade_attempt. rewrite Hsame, IH. reflexivity.
Qed.

(** X14.  Isolation.  The outcome of a question depends on the replies of the
    agent to its own task only: two agents that reply alike to task [i]
    give question [i] the same entry among the gathered results, however
    they reply to the other tasks of the batch. *)
Theorem outcome_depends_on_own_task_only
    (json_loads : pystr -> result pyval)
    (py_float : pyval -> result pyfloat)
    (agent1 agent2 : nat -> nat -> question -> agent_reply)
    (questions : list question) (i : nat) (q : question) :
  nth_error questions i = Some q ->
  (forall attempt, agent1 i attempt q = agent2 i attempt q) ->
  nth_error (gather json_loads py_float agent1 questions) i
  = nth_error (gather json_loads py_float agent2 questions) i.
Proof.
  intros Hq Hsame. unfold gather.
  rewrite !gather_from_nth, Hq. simpl. unfold grade_single_question.
  now rewrite (grade_loop_own_replies _ _ _ _ _ _ _ Hsame).
Qed.

(** *** The database router *)

(** X15.  Relations.  The router allows a relation between two models exactly
    when it sends the reads, and the writes, of both to the same
    database. *)
Theorem relation_allowed_iff_same_database (obj1 obj2 : Router.model) :
  Router.allow_relation obj1 obj2 = true
  <-> Router.db_for_read obj1 = Router.db_for_read obj2
      /\ Router.db_for_write obj1 = Router.db_for_write obj2.
Proof.
  unfold Router.allow_relation, Router.db_for_read, Router.db_for_write.
  destruct (Router.is_tutor_model (Router.model_name obj1));
    destruct (Router.is_tutor_model (Router.model_name obj2));
    cbv zeta; split; try reflexivity; try (intros [H _]); try discriminate;
    auto.
Qed.

(** X16.  Migrations.  A model is migrated on a database exactly when that is
    the database the router sends its writes to; a migration that names no
    model is allowed on the default database only. *)
Theorem migration_allowed_iff_database_of_writes
    (db app_label : pystr) (m : Router.model) :
  (Router.allow_migrate db app_label (Some (Router.model_name m)) = true
   <-> db = Router.db_for_write m)
  /\ (Router.allow_migrate db app_label None = true
      <-> db = Router.DEFAULT).
Proof.
  unfold Router.allow_migrate, Router.db_for_write.
  split.
  - destruct (Router.is_tutor_model (Router.model_name m));
      apply pystr_eqb_eq.
  - apply pystr_eqb_eq.
Qed.

(** *** The further properties on concrete runs *)

(** The agent crashes once and answers the second time. *)
Lemma first_returning_attempt_ends_the_retries_witness :
  exists r,
    (1 < MAX_RETRIES)%nat
    /\ (forall j, (j < 1)%nat ->
          exists e,
            grade_attempt Json.loads Builtins.float
              Demo.agent_answers_second_time Demo.question1 0 j = Raise e)
    /\ grade_attempt Json.loads Builtins.float
         Demo.agent_answers_second_time Demo.question1 0 1 = Ok r
    /\ grade_single_question Json.loads Builtins.float
         Demo.agent_answers_second_time Demo.question1 0
       = (Ok (Some r), [AgentCall 0; GradeSleep 2; AgentCall 1])
    /\ status r = StatusSuccess.
Proof.
  eassert (Hr : grade_attempt Json.loads Builtins.float
                  Demo.agent_answers_second_time Demo.question1 0 1 = Ok _)
    by (vm_compute; reflexivity).
  assert (Hbefore : forall j, (j < 1)%nat ->
            exists e,
              grade_attempt Json.loads Builtins.float
                Demo.agent_answers_second_time Demo.question1 0 j = Raise e).
  { intros j Hj. destruct j; [|lia]. eexists. vm_compute. reflexivity. }
  assert (Hk : (1 < MAX_RETRIES)%nat) by (unfold MAX_RETRIES; lia).
  destruct (first_returning_attempt_ends_the_retries Json.loads
              Builtins.float Demo.agent_answers_second_time Demo.question1
              0 1 _ Hk Hbefore Hr) as (Hg & Hs & _).
  eexists. split; [exact Hk|]. split; [exact Hbefore|].
  split; [exact Hr|]. split; [exact Hg | exact Hs].
Defined.

(** The agent answers with an empty object. *)
Lemma object_without_keys_gets_the_defaults_witness :
  json_span Demo.empty_object = Some Demo.empty_object
  /\ Json.loads Demo.empty_object = Ok (PDict [])
  /\ Builtins.float (PInt 0) = Ok (Float64.of_Z 0)
  /\ Builtins.float (PInt 3) = Ok (Float64.of_Z 3)
  /\ parse_agent_response Json.loads Builtins.float Demo.empty_object 4
     = Ok {| p_question_id := 4;
             p_order := 4;
             p_points_earned := PFloat (Float64.of_Z 0);
             p_points_possible := PFloat (Float64.of_Z 3);
             p_feedback := PStr [];
             p_correct_answer := PStr [] |}.
Proof.
  assert (Hspan : json_span Demo.empty_object = Some Demo.empty_object)
    by (vm_compute; reflexivity).
  assert (Hloads : Json.loads Demo.empty_object = Ok (PDict []))
    by (vm_compute; reflexivity).
  assert (H0 : Builtins.float (PInt 0) = Ok (Float64.of_Z 0))
    by (vm_compute; reflexivity).
  assert (H3 : Builtins.float (PInt 3) = Ok (Float64.of_Z 3))
    by (vm_compute; reflexivity).
  repeat (split; [assumption|]).
  exact (object_without_keys_gets_the_defaults Json.loads Builtins.float
           Demo.empty_object Demo.empty_object 4 [] _ _
           Hspan Hloads eq_refl eq_refl eq_refl eq_refl H0 H3).
Defined.

(** The agent answers with null points, at the first attempt of a task. *)
Lemma unconvertible_points_fail_the_attempt_witness :
  exists e,
    Demo.agent_says Demo.null_points 0%nat 0%nat Demo.question1
    = Responded Demo.null_points
    /\ json_span Demo.null_points = Some Demo.null_points
    /\ Json.loads Demo.null_points = Ok (PDict [(py "points_earned", PNone)])
    /\ Builtins.float PNone = Raise e
    /\ is_JSONDecodeError e = false
    /\ exn_cls e = TypeError
    /\ parse_agent_response Json.loads Builtins.float Demo.null_points 1
       = Raise e
    /\ grade_attempt Json.loads Builtins.float
         (Demo.agent_says Demo.null_points) Demo.question1 0 0 = Raise e.
Proof.
  assert (Hspan : json_span Demo.null_points = Some Demo.null_points)
    by (vm_compute; reflexivity).
  assert (Hloads : Json.loads Demo.null_points
                   = Ok (PDict [(py "points_earned", PNone)]))
    by (vm_compute; reflexivity).
  eassert (Hfloat : Builtins.float PNone = Raise _) by reflexivity.
  destruct (unconvertible_points_fail_the_attempt Json.loads Builtins.float
              (Demo.agent_says Demo.null_points) Demo.question1 0 0
              [1; 2]%nat Demo.null_points Demo.null_points
              [(py "points_earned", PNone)] PNone _
              eq_refl Hspan Hloads eq_refl Hfloat eq_refl)
    as (Hparse & Hattempt & _).
  eexists. split; [reflexivity|]. split; [exact Hspan|].
  split; [exact Hloads|]. split; [exact Hfloat|]. split; [reflexivity|].
  split; [reflexivity|]. split; [exact Hparse | exact Hattempt].
Defined.

(** Of two tasks the second raised, for a question without an order. *)
Lemma raised_task_becomes_an_error_outcome_witness :
  let returned := with_status (default_parsed 0) StatusSuccess None in
  let e := mk_exn PlainException (py "cancelled") in
  let questions := [Demo.question0; Demo.unordered] in
  let results := [Ok (Some returned); Raise e] in
  List.length results = List.length questions
  /\ Forall (fun r => r <> Ok None) results
  /\ nth_error results 1 = Some (Raise e)
  /\ nth_error questions 1 = Some Demo.unordered
  /\ exists p log rs,
       assemble_and_send Demo.callback_ok Demo.elapsed Demo.now questions
         Demo.url results = (Ok p, log)
       /\ results_in p = Some rs
       /\ List.length rs = 2%nat
       /\ In {| question_id := 1;
                order := 1;
                points_earned := PInt 0;
                points_possible := PInt 3;
                feedback := PStr FEEDBACK_UNHANDLED;
                correct_answer := PStr [];
                status := StatusError;
                error_message := Some (py "cancelled") |} rs.
Proof.
  intros returned e questions results.
  assert (Hall : Forall (fun r => r <> Ok None) results)
    by (repeat constructor; discriminate).
  split; [reflexivity|]. split; [exact Hall|].
  split; [reflexivity|]. split; [reflexivity|].
  exact (raised_task_becomes_an_error_outcome Demo.callback_ok Demo.elapsed
           Demo.now questions Demo.url results 1 Demo.unordered e
           eq_refl Hall eq_refl eq_refl).
Defined.

(** Two of three tasks have taken a slot; the run is brought to its end. *)
Lemma every_batch_runs_to_completion_witness :
  let questions := [Demo.question2; Demo.question0; Demo.question1] in
  let agent := Demo.agent_says Demo.graded_object in
  exists p more p',
    run Json.loads Builtins.float agent questions [0; 1]%nat
      (start questions) = Some p
    /\ run Json.loads Builtins.float agent questions ([0; 1]%nat ++ more)
         (start questions) = Some p'
    /\ finished p' = true
    /\ results_of p' = gather Json.loads Builtins.float agent questions
    /\ permits p' = MAX_PARALLEL_TASKS.
Proof.
  intros questions agent.
  eassert (Hrun : run Json.loads Builtins.float agent questions
                    [0; 1]%nat (start questions) = Some _)
    by (vm_compute; reflexivity).
  destruct (every_batch_runs_to_completion Json.loads Builtins.float agent
              questions _ _ Hrun) as (more & p' & H).
  eexists. exists more, p'. split; [exact Hrun | exact H].
Defined.

(** A multiple-choice question on which nothing was selected. *)
Lemma multiple_choice_question_is_always_formatted_witness :
  question_get Demo.choice_question (py "question_type") (PStr (py "text"))
  = PStr (py "multiple_choice")
  /\ Ops.truthy
       (question_get Demo.choice_question (py "selected_answers") (PList []))
     = false
  /\ exists formatted,
       formatted_question Demo.choice_question = Ok formatted
       /\ dict_get (py "choices") formatted
          = Some (PList [PStr (py "m/s"); PStr (py "kg")])
       /\ dict_get (py "student_answer") formatted = Some (PList []).
Proof.
  split; [reflexivity|]. split; [reflexivity|].
  destruct (multiple_choice_question_is_always_formatted Demo.choice_question
              eq_refl) as (formatted & Hf & Hc & _ & Hempty).
  exists formatted. split; [exact Hf|]. split; [exact Hc|].
  exact (Hempty eq_refl).
Defined.

(** A text answer without a picture, for a question without a type. *)
Lemma plain_text_answer_is_passed_unchanged_witness :
  Ops.eq_str
    (question_get Demo.question0 (py "question_type") (PStr (py "text")))
    (py "multiple_choice") = false
  /\ question_get Demo.question0 (py "answer") (PStr [])
     = PStr (py "300000 km/s")
  /\ Ops.is_substring (py "<img") (py "300000 km/s") = false
  /\ exists formatted,
       formatted_question Demo.question0 = Ok formatted
       /\ dict_get (py "student_answer") formatted
          = Some (PStr (py "300000 km/s")).
Proof.
  split; [reflexivity|]. split; [reflexivity|]. split; [reflexivity|].
  exact (plain_text_answer_is_passed_unchanged Demo.question0
           (py "300000 km/s") eq_refl eq_refl (or_introl eq_refl)).
Defined.

(** An answer with a picture between two pieces of text. *)
Lemma picture_answer_is_replaced_by_its_alt_text_witness :
  Ops.eq_str
    (question_get Demo.picture_question (py "question_type")
       (PStr (py "text")))
    (py "multiple_choice") = false
  /\ question_get Demo.picture_question (py "answer") (PStr [])
     = PStr (Demo.picture_before ++ Ops.ALT_OPEN ++ Demo.picture_alt
               ++ Ops.QUOTE :: Demo.picture_after)
  /\ Ops.is_substring (py "<img")
       (Demo.picture_before ++ Ops.ALT_OPEN ++ Demo.picture_alt
          ++ Ops.QUOTE :: Demo.picture_after) = true
  /\ Ops.is_substring Ops.ALT_OPEN (Demo.picture_before ++ py "alt=") = false
  /\ ~ In Ops.QUOTE Demo.picture_alt
  /\ exists formatted,
       formatted_question Demo.picture_question = Ok formatted
       /\ dict_get (py "student_answer") formatted
          = Some (PStr (py "v = 3 m/s")).
Proof.
  assert (Htxt : ~ In Ops.QUOTE Demo.picture_alt) by absent.
  split; [reflexivity|]. split; [reflexivity|]. split; [reflexivity|].
  split; [reflexivity|]. split; [exact Htxt|].
  exact (picture_answer_is_replaced_by_its_alt_text Demo.picture_question
           Demo.picture_before Demo.picture_alt Demo.picture_after
           eq_refl eq_refl eq_refl eq_refl Htxt).
Defined.

(** A text question whose answer is null. *)
Lemma unformattable_question_never_reaches_the_runner_witness :
  let json_dumps := fun v => Ok (Encode.dumps v) in
  let engine := Demo.engine_says Demo.graded_object in
  exists e,
    Ops.eq_str
      (question_get Demo.unanswered_question (py "question_type")
         (PStr (py "text")))
      (py "multiple_choice") = false
    /\ Ops.contains (py "<img")
         (question_get Demo.unanswered_question (py "answer") (PStr []))
       = Raise e
    /\ exn_cls e = TypeError
    /\ format_question_for_agent json_dumps Demo.unanswered_question
       = Raise e
    /\ grade_single_question Json.loads Builtins.float
         (agent_behind_format json_dumps engine) Demo.unanswered_question 2
       = (Ok (Some {| question_id := 2;
                      order := 2;
                      points_earned := PInt 0;
                      points_possible := PInt 6;
                      feedback := PStr FEEDBACK_RETRIES_FAILED;
                      correct_answer := PStr [];
                      status := StatusError;
                      error_message := Some (exn_str e) |}),
          [AgentCall 0; GradeSleep 2; AgentCall 1; GradeSleep 4;
           AgentCall 2]).
Proof.
  intros json_dumps engine.
  eassert (Hraise : Ops.contains (py "<img")
                      (question_get Demo.unanswered_question (py "answer")
                         (PStr [])) = Raise _)
    by reflexivity.
  destruct (unformattable_question_never_reaches_the_runner Json.loads
              Builtins.float json_dumps engine Demo.unanswered_question 2 _
              eq_refl Hraise) as (Hformat & Hgrade).
  eexists. split; [reflexivity|]. split; [exact Hraise|].
  split; [reflexivity|]. split; [exact Hformat | exact Hgrade].
Defined.

(** Two agents that differ on task 1 only, seen from task 0. *)
Lemma outcome_depends_on_own_task_only_witness :
  let questions := [Demo.question0; Demo.question1] in
  let agent1 := Demo.agent_fails_task1 in
  let agent2 :=
    Demo.agent_says (pyq "{'points_earned': 3, 'points_possible': 3}") in
  nth_error questions 0 = Some Demo.question0
  /\ (forall attempt,
         agent1 0%nat attempt Demo.question0
         = agent2 0%nat attempt Demo.question0)
  /\ agent1 1%nat 0%nat Demo.question1 <> agent2 1%nat 0%nat Demo.question1
  /\ nth_error (gather Json.loads Builtins.float agent1 questions) 0
     = nth_error (gather Json.loads Builtins.float agent2 questions) 0.
Proof.
  intros questions agent1 agent2.
  assert (Hsame : forall attempt,
            agent1 0%nat attempt Demo.question0
            = agent2 0%nat attempt Demo.question0)
    by (intro attempt; reflexivity).
  split; [reflexivity|]. split; [exact Hsame|].
  split; [discriminate|].
  exact (outcome_depends_on_own_task_only Json.loads Builtins.float
           agent1 agent2 questions 0 Demo.question0 eq_refl Hsame).
Defined.

(** What the agent is sent for the question with the picture. *)
Example picture_question_as_the_agent_gets_it :
  format_question_for_agent (fun v => Ok (Encode.dumps v))
    Demo.picture_question
  = Ok (pyq "{'question_text': 'Laske nopeus.', 'question_type': 'text', 'student_answer': 'v = 3 m/s', 'course': 'FY1'}").
Proof. vm_compute. reflexivity. Qed.
